(** * The Nexmo REST client (lib/nexmo.js), embedded in Rocq

    The client is a JavaScript module with process-wide mutable settings.
    Every public operation validates its arguments, hands a parameter object
    to [sendRequest], and [sendRequest] builds one HTTP(S) request and wires
    the transport events ('response', 'data', 'end', 'close', 'error') to the
    caller's continuation.

    The embedding follows the source function by function: JavaScript values
    are an inductive type, the module's settings and the outside world (the
    requests handed to the transport, the continuations invoked) are an
    explicit state, and code that may throw lives in a state-and-exception
    monad.  The runtime's own library functions ([JSON.parse], number
    formatting and parsing) are an interface the development is parametric
    in; [encodeURIComponent] and [querystring.stringify] are written out. *)

From stdpp Require Import base numbers list strings gmap.
From Stdlib Require Import Ascii.

#[local] Set Warnings "-register-all".

(** ** Strings

    A JavaScript string is a sequence of UTF-16 code units. *)

Abbreviation jsstring := (list N).

Fixpoint js (s : string) : jsstring :=
  match s with
  | EmptyString => []
  | String a r => N_of_ascii a :: js r
  end.
Arguments js : simpl never.

Definition is_high_surrogate (c : N) : bool := ((55296 <=? c) && (c <=? 56319))%N.
Definition is_low_surrogate (c : N) : bool := ((56320 <=? c) && (c <=? 57343))%N.

(** The code point of a surrogate pair. *)
Definition pair_code_point (hi lo : N) : N :=
  (65536 + (hi - 55296) * 1024 + (lo - 56320))%N.

(** UTF-8 encoding of one code point. *)
Definition utf8 (cp : N) : list N :=
  (if cp <? 128 then [cp]
   else if cp <? 2048 then [192 + cp / 64; 128 + cp mod 64]
   else if cp <? 65536 then
     [224 + cp / 4096; 128 + (cp / 64) mod 64; 128 + cp mod 64]
   else
     [240 + cp / 262144; 128 + (cp / 4096) mod 64;
      128 + (cp / 64) mod 64; 128 + cp mod 64])%N.

(** Number of bytes a string occupies once written to a socket with the
    default 'utf8' encoding: what [Buffer.byteLength(s)] returns.  An unpaired
    surrogate is written as U+FFFD, three bytes. *)
Fixpoint byteLength (s : jsstring) : nat :=
  match s with
  | [] => 0
  | c :: r =>
      if (c <? 128)%N then S (byteLength r)
      else if (c <? 2048)%N then 2 + byteLength r
      else if is_high_surrogate c then
        match r with
        | d :: r' =>
            if is_low_surrogate d then 4 + byteLength r' else 3 + byteLength r
        | [] => 3
        end
      else 3 + byteLength r
  end.

(** Characters [encodeURIComponent] leaves alone:
    A-Z a-z 0-9 - _ . ! ~ * ' ( ) *)
Definition unreserved (c : N) : bool :=
  (((65 <=? c) && (c <=? 90)) || ((97 <=? c) && (c <=? 122))
   || ((48 <=? c) && (c <=? 57))
   || bool_decide (c ∈ [45; 95; 46; 33; 126; 42; 39; 40; 41]))%N.

Definition hex_digit (n : N) : N := (if n <? 10 then 48 + n else 55 + n)%N.

(** "%XX" for one byte. *)
Definition percent (b : N) : jsstring :=
  [37%N; hex_digit ((b / 16) mod 16); hex_digit (b mod 16)].

Definition percent_encode (cp : N) : jsstring := flat_map percent (utf8 cp).

(** [encodeURIComponent] on a string; [None] is the URIError raised for an
    unpaired surrogate. *)
Fixpoint encodeURIComponent (s : jsstring) : option jsstring :=
  match s with
  | [] => Some []
  | c :: r =>
      if unreserved c then cons c <$> encodeURIComponent r
      else if is_low_surrogate c then None
      else if is_high_surrogate c then
        match r with
        | d :: r' =>
            if is_low_surrogate d
            then app (percent_encode (pair_code_point c d)) <$> encodeURIComponent r'
            else None
        | [] => None
        end
      else app (percent_encode c) <$> encodeURIComponent r
  end.

(** Decimal spelling of an array index, as used for a property key. *)
Fixpoint decimal_digits (fuel : nat) (n : N) (acc : jsstring) : jsstring :=
  match fuel with
  | O => acc
  | S fuel' =>
      let acc' := (48 + n mod 10)%N :: acc in
      if (n <? 10)%N then acc' else decimal_digits fuel' (n / 10)%N acc'
  end.

Definition index_key (i : nat) : jsstring :=
  decimal_digits (S i) (N.of_nat i) [].

(** [Array.prototype.join] on already converted elements. *)
Fixpoint join (sep : jsstring) (parts : list jsstring) : jsstring :=
  match parts with
  | [] => []
  | [p] => p
  | p :: rest => p ++ sep ++ join sep rest
  end.

(** ** Numbers

    A JavaScript number is an IEEE double: NaN, an infinity, or a finite
    value [m * 2^e].  Signed zero is not distinguished (the client never
    divides). *)

Inductive jsnum :=
| NaN
| Infinity (negative : bool)
| Finite (m e : Z).

Definition num (n : nat) : jsnum := Finite (Z.of_nat n) 0.

Definition isFinite (x : jsnum) : bool :=
  match x with Finite _ _ => true | _ => false end.

Definition num_nonzero (x : jsnum) : bool :=
  match x with
  | NaN => false
  | Infinity _ => true
  | Finite m _ => negb (m =? 0)%Z
  end.

(** The mantissa of [m * 2^e] at the smaller exponent [e0 <= e]. *)
Definition scaled (m e e0 : Z) : Z := (m * 2 ^ (e - e0))%Z.

(** [x < y] on numbers; false as soon as one side is NaN. *)
Definition num_lt (x y : jsnum) : bool :=
  match x, y with
  | NaN, _ | _, NaN => false
  | Infinity nx, Infinity ny => nx && negb ny
  | Infinity nx, Finite _ _ => nx
  | Finite _ _, Infinity ny => negb ny
  | Finite m1 e1, Finite m2 e2 =>
      let e0 := Z.min e1 e2 in (scaled m1 e1 e0 <? scaled m2 e2 e0)%Z
  end.

(** [x === y] on numbers. *)
Definition num_eq (x y : jsnum) : bool :=
  match x, y with
  | Infinity nx, Infinity ny => bool_decide (nx = ny)
  | Finite m1 e1, Finite m2 e2 =>
      let e0 := Z.min e1 e2 in (scaled m1 e1 e0 =? scaled m2 e2 e0)%Z
  | _, _ => false
  end.

(** ** Values *)

Inductive error_class := PlainError | SyntaxError.

(** [JFunction id arity] is a function supplied by the caller (a
    continuation); [JSendGuard callback] is the closure [sendMessage] creates
    around the caller's [callback] and hands to [sendRequest]. *)
Inductive jsval :=
| JUndefined
| JNull
| JBool (b : bool)
| JNumber (n : jsnum)
| JString (s : jsstring)
| JArray (elements : list jsval)
| JObject (properties : list (jsstring * jsval))
| JError (class : error_class) (message : jsstring)
| JFunction (id : nat) (arity : nat)
| JSendGuard (callback : jsval).

(** What a [throw] carries: a value thrown by the client's own code, or one of
    the errors the runtime raises. *)
Inductive thrown :=
| Throw (v : jsval)
| TypeError
| ReferenceError (name : string)
| URIError.

Inductive completion (A : Type) :=
| Normal (a : A)
| Abrupt (e : thrown).
Arguments Normal {A} a.
Arguments Abrupt {A} e.

(** [if (v)], [!v], [v && ...]. *)
Definition truthy (v : jsval) : bool :=
  match v with
  | JUndefined | JNull => false
  | JBool b => b
  | JNumber n => num_nonzero n
  | JString s => negb (bool_decide (s = []))
  | _ => true
  end.

(** [typeof v === 'function'] *)
Definition is_function (v : jsval) : bool :=
  match v with
  | JFunction _ _ | JSendGuard _ => true
  | _ => false
  end.

(** [v === 'text'] *)
Definition strict_eq_string (v : jsval) (text : string) : bool :=
  match v with
  | JString s => bool_decide (s = js text)
  | _ => false
  end.

(** [v === n] and [v !== n] for a number [n]. *)
Definition strict_eq_num (v : jsval) (n : jsnum) : bool :=
  match v with
  | JNumber x => num_eq x n
  | _ => false
  end.

Fixpoint lookup_property (k : jsstring) (props : list (jsstring * jsval)) : jsval :=
  match props with
  | [] => JUndefined
  | (k', v) :: rest => if decide (k = k') then v else lookup_property k rest
  end.

(** [v[i]] for an integer [i].  Reading a property of [undefined] or [null]
    is a TypeError. *)
Definition get_index (v : jsval) (i : nat) : completion jsval :=
  match v with
  | JUndefined | JNull => Abrupt TypeError
  | JString s => Normal (from_option (λ c, JString [c]) JUndefined (s !! i))
  | JArray l => Normal (default JUndefined (l !! i))
  | JObject props => Normal (lookup_property (index_key i) props)
  | _ => Normal JUndefined
  end.

(** [v.name] and [v['name']] for the property names the client reads:
    length, status, error-text, messages, from, to, text.  None of them is
    inherited from a prototype, so an object answers with its own property. *)
Definition get (v : jsval) (name : string) : completion jsval :=
  match v with
  | JUndefined | JNull => Abrupt TypeError
  | JString s =>
      Normal (if bool_decide (name = "length") then JNumber (num (length s))
              else JUndefined)
  | JArray l =>
      Normal (if bool_decide (name = "length") then JNumber (num (length l))
              else JUndefined)
  | JObject props => Normal (lookup_property (js name) props)
  | JFunction _ arity =>
      Normal (if bool_decide (name = "length") then JNumber (num arity)
              else JUndefined)
  | JSendGuard _ =>
      Normal (if bool_decide (name = "length") then JNumber (num 2)
              else JUndefined)
  | _ => Normal JUndefined
  end.

(** ** The runtime interface

    Library functions of the JavaScript runtime that the client calls, or
    that its coercions go through, and whose results the client only passes
    along.  [JSON_parse] answers with the decoded value or with the message
    of the SyntaxError it throws. *)

Class Runtime := {
  JSON_parse : jsstring → jsval + jsstring;
  StringToNumber : jsstring → jsnum;
  NumberToString : jsnum → jsstring;
  FunctionToString : jsval → jsstring;
}.

Section Coercions.
Context {RT : Runtime}.

Definition error_class_name (c : error_class) : jsstring :=
  match c with
  | PlainError => js "Error"
  | SyntaxError => js "SyntaxError"
  end.

(** [String(v)], the conversion behind [encodeURIComponent(v)] and behind a
    comparison of an object with a number. *)
Fixpoint ToString (v : jsval) : jsstring :=
  match v with
  | JUndefined => js "undefined"
  | JNull => js "null"
  | JBool b => js (if b then "true" else "false")
  | JNumber n => NumberToString n
  | JString s => s
  | JArray l =>
      join (js ",")
        (List.map (λ x, match x with
                        | JUndefined | JNull => []
                        | _ => ToString x
                        end) l)
  | JObject _ => js "[object Object]"
  | JError c m =>
      match m with
      | [] => error_class_name c
      | _ => error_class_name c ++ js ": " ++ m
      end
  | JFunction _ _ | JSendGuard _ => FunctionToString v
  end.

Definition ToNumber (v : jsval) : jsnum :=
  match v with
  | JUndefined => NaN
  | JNull => num 0
  | JBool b => num (if b then 1 else 0)
  | JNumber n => n
  | JString s => StringToNumber s
  | _ => StringToNumber (ToString v)
  end.

(** [v > n] and [v < n] against a number literal [n]. *)
Definition gt (v : jsval) (n : nat) : bool := num_lt (num n) (ToNumber v).
Definition lt (v : jsval) (n : nat) : bool := num_lt (ToNumber v) (num n).

(** [new Error(message)]; a second constructor argument is ignored by the
    runtime. *)
Definition new_Error (message : jsval) : jsval :=
  JError PlainError
    match message with
    | JUndefined => []
    | _ => ToString message
    end.

(** [encodeURIComponent(v)] on any value. *)
Definition encodeURIComponent_value (v : jsval) : completion jsval :=
  match encodeURIComponent (ToString v) with
  | Some s => Normal (JString s)
  | None => Abrupt URIError
  end.

(** *** querystring.stringify

    Node's [querystring.stringify(obj)]: every own key of [obj] becomes
    [escape(key) + '=' + escape(value)], an array value one such pair per
    element, the pairs joined by '&'.  Strings, finite numbers and booleans
    are serialised; any other value is the empty string.  [escape] is
    [encodeURIComponent]. *)
Definition stringifyPrimitive (v : jsval) : jsstring :=
  match v with
  | JString s => s
  | JBool b => js (if b then "true" else "false")
  | JNumber n => if isFinite n then NumberToString n else []
  | _ => []
  end.

Definition stringify_pair (kv : jsstring * jsval) : option jsstring :=
  ks ← (λ k, k ++ js "=") <$> encodeURIComponent kv.1;
  match kv.2 with
  | JArray l =>
      join (js "&") <$>
        mapM (λ x, app ks <$> encodeURIComponent (stringifyPrimitive x)) l
  | v => app ks <$> encodeURIComponent (stringifyPrimitive v)
  end.

Definition querystring_stringify (obj : jsval) : option jsstring :=
  match obj with
  | JObject props => join (js "&") <$> mapM stringify_pair props
  | JArray l =>
      join (js "&") <$> mapM stringify_pair (imap (λ i x, (index_key i, x)) l)
  | _ => Some []
  end.
End Coercions.

(** ** The module's state and the world around it *)

(** What [http.request(options)] or [https.request(options)] is given, and
    what is written to the request before [request.end()].  [headers] is
    the content of the header object at the time of the call: the transport
    copies the headers when the request is created. *)
Record request := {
  host : jsstring;
  port : nat;
  path : jsstring;
  method : jsval;
  headers : gmap string jsval;
  secure : bool;
  written : option jsstring;
}.

(** The variables the event handlers of one request close over. *)
Record exchange := {
  callback : jsval;
  buffer : jsstring;
  responded : bool;
}.

(** The module-level variables, followed by the observable effects: requests
    created (oldest first), the handler state that belongs to each of them,
    and the caller-supplied functions invoked, with their arguments (oldest
    first). *)
Record world := {
  _apiKey : jsval;
  _apiSecret : jsval;
  _useHttps : bool;
  _debugMode : jsval;
  _initialized : bool;
  _HEADERS : gmap string jsval;
  requests : list request;
  exchanges : list exchange;
  invocations : list (nat * list jsval);
}.

(** The state right after [Nexmo()] has been called. *)
Definition Nexmo : world := {|
  _apiKey := JString [];
  _apiSecret := JString [];
  _useHttps := true;
  _debugMode := JBool false;
  _initialized := false;
  _HEADERS :=
    <["Content-Type" := JString (js "application/x-www-form-urlencoded")]>
      (<["accept" := JString (js "application/json")]> ∅);
  requests := [];
  exchanges := [];
  invocations := [];
|}.

Definition _BASE_URL : jsstring := js "rest.nexmo.com".

Module _ENDPOINT.
Definition sms := js "/sms/json".
Definition ussd := js "/ussd/json".
Definition tts := js "/tts/json".
Definition accountGetBalance := js "/account/get-balance".
Definition accountPricing := js "/account/get-pricing/outbound".
Definition accountSettings := js "/account/settings".
Definition accountTopUp := js "/account/top-up".
Definition accountNumbers := js "/account/numbers".
Definition numberSearch := js "/number/search".
Definition numberBuy := js "/number/buy".
Definition numberCancel := js "/number/cancel".
Definition numberUpdate := js "/number/update".
Definition searchMessage := js "/search/message".
Definition searchMessages := js "/search/messages".
Definition searchRejections := js "/search/rejections".
End _ENDPOINT.

Module _ERROR_MESSAGES.
Definition initializeRequired :=
  js "nexmo not initialized, call nexmo.initialize(api_key, api_secret) first before calling any nexmo API".
Definition keyAndSecretRequired := js "Key and secret cannot be empty".
Definition invalidTextMessage := js "Invalid text message".
Definition invalidBody := js "Invalid body value in binary message".
Definition invalidUdh := js "Invalid udh value in binary message".
Definition invalidTitle := js "Invalid title in WAP push message".
Definition invalidUrl := js "Invalid url in WAP push message".
Definition invalidSender := js "Invalid from address".
Definition invalidRecipient := js "Invalid to address".
Definition invalidCountryCode := js "Invalid country code".
Definition invalidMsisdn := js "Invalid MSISDN passed".
Definition invalidMessageId := js "Invalid message id(s)".
Definition tooManyMessageId := js "Too many message id".
Definition invalidDate := js "Invalid date value".
Definition invalidNewSecret := js "Invalid new secret".
Definition invalidCallbackUrl := js "Invalid callback url".
Definition invalidTransactionId := js "Invalid transaction id".
End _ERROR_MESSAGES.

(** *** State updates *)

Definition configure (key secret : jsval) (useHttps : bool) (debug : jsval)
    (w : world) : world :=
  {| _apiKey := key; _apiSecret := secret; _useHttps := useHttps;
     _debugMode := debug; _initialized := true;
     _HEADERS := _HEADERS w; requests := requests w;
     exchanges := exchanges w; invocations := invocations w |}.

(** [_HEADERS[name] = v] *)
Definition set_header (name : string) (v : jsval) (w : world) : world :=
  {| _apiKey := _apiKey w; _apiSecret := _apiSecret w;
     _useHttps := _useHttps w; _debugMode := _debugMode w;
     _initialized := _initialized w;
     _HEADERS := <[name := v]> (_HEADERS w); requests := requests w;
     exchanges := exchanges w; invocations := invocations w |}.

Definition add_request (r : request) (x : exchange) (w : world) : world :=
  {| _apiKey := _apiKey w; _apiSecret := _apiSecret w;
     _useHttps := _useHttps w; _debugMode := _debugMode w;
     _initialized := _initialized w;
     _HEADERS := _HEADERS w; requests := requests w ++ [r];
     exchanges := exchanges w ++ [x]; invocations := invocations w |}.

Definition set_exchange (i : nat) (x : exchange) (w : world) : world :=
  {| _apiKey := _apiKey w; _apiSecret := _apiSecret w;
     _useHttps := _useHttps w; _debugMode := _debugMode w;
     _initialized := _initialized w;
     _HEADERS := _HEADERS w; requests := requests w;
     exchanges := <[i := x]> (exchanges w); invocations := invocations w |}.

Definition add_invocation (id : nat) (args : list jsval) (w : world) : world :=
  {| _apiKey := _apiKey w; _apiSecret := _apiSecret w;
     _useHttps := _useHttps w; _debugMode := _debugMode w;
     _initialized := _initialized w;
     _HEADERS := _HEADERS w; requests := requests w;
     exchanges := exchanges w; invocations := invocations w ++ [(id, args)] |}.

(** ** Computations: state passing with exceptions

    A JavaScript function body either completes normally or throws; either
    way the state it has changed so far stays changed. *)

Definition M (A : Type) : Type := world → completion A * world.

#[global] Instance M_ret : MRet M := λ A a w, (Normal a, w).

#[global] Instance M_bind : MBind M := λ A B k m w,
  match m w with
  | (Normal a, w') => k a w'
  | (Abrupt e, w') => (Abrupt e, w')
  end.

Definition throw {A} (e : thrown) : M A := λ w, (Abrupt e, w).
Definition lift {A} (c : completion A) : M A := λ w, (c, w).
Definition read {A} (f : world → A) : M A := λ w, (Normal (f w), w).
Definition modify (f : world → world) : M unit := λ w, (Normal (), f w).

#[global] Instance completion_ret : MRet completion := λ A a, Normal a.

#[global] Instance completion_bind : MBind completion := λ A B k c,
  match c with
  | Normal a => k a
  | Abrupt e => Abrupt e
  end.

#[global] Instance completion_fmap : FMap completion := λ A B f c,
  match c with
  | Normal a => Normal (f a)
  | Abrupt e => Abrupt e
  end.

(** [a && b] and [a || b] in a condition: the right operand is evaluated, and
    may throw, only when the left one does not decide. *)
Definition js_and (a b : completion bool) : completion bool :=
  x ← a; if x : bool then b else mret false.

Definition js_or (a b : completion bool) : completion bool :=
  x ← a; if x : bool then mret true else b.

(** The [i]-th actual argument of a call; a missing one is [undefined]. *)
Definition arg (i : nat) (args : list jsval) : jsval :=
  default JUndefined (args !! i).

(** ** The client *)

Section Client.
Context {RT : Runtime}.

Definition stringify (obj : jsval) : M jsstring :=
  match querystring_stringify obj with
  | Some s => mret s
  | None => throw URIError
  end.

(** [log] writes to the console and nothing else; it is left out. *)

Definition initialize (key secret protocol debug : jsval) : M unit :=
  if negb (truthy key) || negb (truthy secret)
  then throw (Throw (JString _ERROR_MESSAGES.keyAndSecretRequired))
  else modify (configure key secret (negb (strict_eq_string protocol "http")) debug).

(** [sendErrorResponse], with the call of [callback] passed in, so that the
    closure of [sendMessage] below can use it on the callback it wraps. *)
Definition sendErrorResponse_via (invoke : list jsval → M unit)
    (callback err returnData : jsval) : M unit :=
  if truthy callback then invoke [err; returnData] else throw (Throw err).

(** The function [sendMessage] passes to [sendRequest]:
    [function (err, apiResponse) { ... }], closing over [callback]. *)
Definition send_guard (invoke : list jsval → M unit)
    (callback err apiResponse : jsval) : M unit :=
  top ← lift (js_and (mret (negb (truthy err)))
               (js_and (truthy <$> get apiResponse "status")
                       (truthy <$> get apiResponse "error-text")));
  if top : bool then
    text ← lift (get apiResponse "error-text");
    sendErrorResponse_via invoke callback (new_Error text) JUndefined
  else
    first ← lift (js_and (mret (negb (truthy err)))
                   (js_and (truthy <$> get apiResponse "status")
                     (js_and (truthy <$> get apiResponse "messages")
                        (messages ← get apiResponse "messages";
                         entry ← get_index messages 0;
                         status ← get entry "status";
                         mret (gt status 0)))));
    if first : bool then
      messages ← lift (get apiResponse "messages");
      entry ← lift (get_index messages 0);
      text ← lift (get entry "error-text");
      sendErrorResponse_via invoke callback (new_Error text) JUndefined
    else
      if truthy callback then invoke [err; apiResponse] else mret ().

(** [f(args)]: a caller's function is recorded as invoked (it is taken to
    return normally and not to call back into the client), the closure of
    [sendMessage] runs its body, anything else is not callable. *)
Fixpoint call (f : jsval) (args : list jsval) : M unit :=
  match f with
  | JFunction id _ => modify (add_invocation id args)
  | JSendGuard callback =>
      send_guard (call callback) callback (arg 0 args) (arg 1 args)
  | _ => throw TypeError
  end.

Definition sendErrorResponse (callback err returnData : jsval) : M unit :=
  sendErrorResponse_via (call callback) callback err returnData.

(** No function [sendError] is declared anywhere in the module: evaluating
    the call raises a ReferenceError before its arguments are looked at. *)
Definition sendError (callback err : jsval) : M unit :=
  throw (ReferenceError "sendError").

Definition sendRequest (endpoint : jsstring) (data method callback : jsval)
    : M unit :=
  initialized ← read _initialized;
  if negb initialized
  then throw (Throw (JString _ERROR_MESSAGES.initializeRequired))
  else
    key ← read _apiKey;
    secret ← read _apiSecret;
    let credentials := JObject [(js "api_key", key); (js "api_secret", secret)] in
    dataString ← stringify credentials;
    dataString ← (if truthy data
                  then s ← stringify data; mret (dataString ++ js "&" ++ s)
                  else mret dataString);
    let '(callback, method) :=
      if is_function method then (method, JString (js "GET"))
      else (callback, method) in
    endpoint ← (if strict_eq_string method "POST"
                then modify (set_header "Content-Length"
                               (JNumber (num (length dataString))));;
                     mret endpoint
                else mret (endpoint ++ js "?" ++ dataString));
    shared ← read _HEADERS;
    useHttps ← read _useHttps;
    let options := {|
      host := _BASE_URL;
      port := if useHttps : bool then 443 else 80;
      path := endpoint;
      method := method;
      headers := shared;
      secure := useHttps;
      written := if strict_eq_string method "POST" then Some dataString else None
    |} in
    modify (add_request options
              {| callback := callback; buffer := []; responded := false |}).

Definition sendMessage (data : jsval) (endpoint : jsstring) (callback : jsval)
    : M unit :=
  from ← lift (get data "from");
  if negb (truthy from) then
    sendErrorResponse callback
      (new_Error (JString _ERROR_MESSAGES.invalidSender)) JUndefined
  else
    to ← lift (get data "to");
    if negb (truthy to) then
      sendErrorResponse callback
        (new_Error (JString _ERROR_MESSAGES.invalidRecipient)) JUndefined
    else
      sendRequest endpoint data (JString (js "POST")) (JSendGuard callback).

(** *** Public operations *)

Definition sendTextMessage (sender recipient message callback : jsval)
    : M unit :=
  if negb (truthy message) then
    sendErrorResponse callback
      (new_Error (JString _ERROR_MESSAGES.invalidTextMessage)) JUndefined
  else
    let options := JObject [(js "from", sender); (js "to", recipient);
                            (js "type", JString (js "unicode"));
                            (js "text", message)] in
    sendMessage options _ENDPOINT.sms callback.

Definition sendBinaryMessage (sender recipient body udh callback : jsval)
    : M unit :=
  if negb (truthy body) then
    sendErrorResponse callback
      (new_Error (JString _ERROR_MESSAGES.invalidBody)) JUndefined
  else if negb (truthy udh) then
    sendErrorResponse callback
      (new_Error (JString _ERROR_MESSAGES.invalidUdh)) JUndefined
  else
    let options := JObject [(js "from", sender); (js "to", recipient);
                            (js "type", JString (js "binary"));
                            (js "body", body); (js "udh", udh)] in
    sendMessage options _ENDPOINT.sms callback.

Definition sendWapPushMessage
    (sender recipient title url validity callback : jsval) : M unit :=
  if negb (truthy title) then
    sendErrorResponse callback
      (new_Error (JString _ERROR_MESSAGES.invalidTitle)) JUndefined
  else if negb (truthy url) then
    sendErrorResponse callback
      (new_Error (JString _ERROR_MESSAGES.invalidUrl)) JUndefined
  else
    let '(callback, validity) :=
      if is_function validity
      then (validity, JNumber (Finite 172800000 0))
      else (callback, validity) in
    encoded ← lift (encodeURIComponent_value url);
    let options := JObject [(js "from", sender); (js "to", recipient);
                            (js "type", JString (js "wappush"));
                            (js "title", title); (js "url", encoded);
                            (js "validity", validity)] in
    sendMessage options _ENDPOINT.sms callback.

Definition sendTTSMessage (sender recipient message callback : jsval)
    : M unit :=
  if negb (truthy message) then
    sendErrorResponse callback
      (new_Error (JString _ERROR_MESSAGES.invalidTextMessage)) JUndefined
  else
    let options := JObject [(js "from", sender); (js "to", recipient);
                            (js "text", message)] in
    sendMessage options _ENDPOINT.tts callback.

(** A call [sendRequest(endpoint, data, callback)] binds the continuation to
    the parameter [method] and leaves the parameter [callback] undefined. *)
Definition getBalance (callback : jsval) : M unit :=
  sendRequest _ENDPOINT.accountGetBalance JNull callback JUndefined.

(** [!countryCode || countryCode.length !== 2] *)
Definition bad_country_code (countryCode : jsval) : completion bool :=
  js_or (mret (negb (truthy countryCode)))
        (len ← get countryCode "length";
         mret (negb (strict_eq_num len (num 2)))).

(** [!msisdn || msisdn.length < 10] *)
Definition bad_msisdn (msisdn : jsval) : completion bool :=
  js_or (mret (negb (truthy msisdn)))
        (len ← get msisdn "length"; mret (lt len 10)).

Definition getPricing (countryCode callback : jsval) : M unit :=
  bad ← lift (bad_country_code countryCode);
  if bad : bool then
    sendErrorResponse callback
      (new_Error (JString _ERROR_MESSAGES.invalidCountryCode)) JUndefined
  else
    let data := JObject [(js "country", countryCode)] in
    sendRequest _ENDPOINT.accountPricing data callback JUndefined.

Definition updateSecret (newSecret callback : jsval) : M unit :=
  bad ← lift (js_or (mret (negb (truthy newSecret)))
                (len ← get newSecret "length"; mret (gt len 8)));
  if bad : bool then
    sendError callback (new_Error (JString _ERROR_MESSAGES.invalidNewSecret))
  else
    encoded ← lift (encodeURIComponent_value newSecret);
    let data := JObject [(js "newSecret", encoded)] in
    sendRequest _ENDPOINT.accountSettings data (JString (js "POST")) callback.

Definition updateMoCallBackUrl (newUrl callback : jsval) : M unit :=
  if negb (truthy newUrl) then
    sendError callback (new_Error (JString _ERROR_MESSAGES.invalidCallbackUrl))
  else
    encoded ← lift (encodeURIComponent_value newUrl);
    let data := JObject [(js "moCallBackUrl", encoded)] in
    sendRequest _ENDPOINT.accountSettings data (JString (js "POST")) callback.

Definition updateDrCallBackUrl (newUrl callback : jsval) : M unit :=
  if negb (truthy newUrl) then
    sendError callback (new_Error (JString _ERROR_MESSAGES.invalidCallbackUrl))
  else
    encoded ← lift (encodeURIComponent_value newUrl);
    let data := JObject [(js "drCallBackUrl", encoded)] in
    sendRequest _ENDPOINT.accountSettings data (JString (js "POST")) callback.

Definition getTopUp (transactionId callback : jsval) : M unit :=
  if negb (truthy transactionId) then
    sendError callback
      (new_Error (JString _ERROR_MESSAGES.invalidTransactionId))
  else
    let data := JObject [(js "trx", transactionId)] in
    sendRequest _ENDPOINT.accountTopUp data (JString (js "POST")) callback.

Definition getNumbers (callback : jsval) : M unit :=
  sendRequest _ENDPOINT.accountNumbers JNull callback JUndefined.

Definition searchNumbers (countryCode pattern index size callback : jsval)
    : M unit :=
  bad ← lift (bad_country_code countryCode);
  if bad : bool then
    sendErrorResponse callback
      (new_Error (JString _ERROR_MESSAGES.invalidCountryCode)) JUndefined
  else
    let country := [(js "country", countryCode)] in
    let '(data, callback) :=
      if is_function pattern then (country, pattern)
      else if is_function index then
        (country ++ [(js "pattern", pattern)], index)
      else if is_function size then
        (country ++ [(js "pattern", pattern); (js "index", index)], size)
      else
        (country ++ [(js "pattern", pattern); (js "index", index);
                     (js "size", size)], callback) in
    sendRequest _ENDPOINT.numberSearch (JObject data) callback JUndefined.

Definition buyNumber (countryCode msisdn callback : jsval) : M unit :=
  bad ← lift (bad_country_code countryCode);
  if bad : bool then
    sendErrorResponse callback
      (new_Error (JString _ERROR_MESSAGES.invalidCountryCode)) JUndefined
  else
    bad ← lift (bad_msisdn msisdn);
    if bad : bool then
      sendErrorResponse callback
        (new_Error (JString _ERROR_MESSAGES.invalidMsisdn)) JUndefined
    else
      let data := JObject [(js "country", countryCode); (js "msisdn", msisdn)] in
      sendRequest _ENDPOINT.numberBuy data (JString (js "POST")) callback.

Definition cancelNumber (countryCode msisdn callback : jsval) : M unit :=
  bad ← lift (bad_country_code countryCode);
  if bad : bool then
    sendErrorResponse callback
      (new_Error (JString _ERROR_MESSAGES.invalidCountryCode)) JUndefined
  else
    bad ← lift (bad_msisdn msisdn);
    if bad : bool then
      sendErrorResponse callback
        (new_Error (JString _ERROR_MESSAGES.invalidMsisdn)) JUndefined
    else
      let data := JObject [(js "country", countryCode); (js "msisdn", msisdn)] in
      sendRequest _ENDPOINT.numberCancel data (JString (js "POST")) callback.

Definition updateNumberCallback
    (countryCode msisdn newUrl sysType callback : jsval) : M unit :=
  throw (Throw (JString (js "Not yet implemented!"))).

Definition searchMessage (messageId callback : jsval) : M unit :=
  if negb (truthy messageId) then
    sendErrorResponse callback
      (new_Error (JString _ERROR_MESSAGES.invalidMessageId)) JUndefined
  else
    let data := JObject [(js "id", messageId)] in
    sendRequest _ENDPOINT.searchMessage data callback JUndefined.

(** The loop [for (idx = 0, len = messageIds.length; idx < len; idx++)
    data.ids.push(messageIds[idx])], started at [idx].  It is entered only
    when [len > 10] is false, so it ends before [idx] passes 10 and 11
    rounds of [fuel] are never used up ([copy_ids_fuel]). *)
Fixpoint copy_ids (fuel idx : nat) (messageIds len : jsval)
    : completion (list jsval) :=
  match fuel with
  | O => Normal []
  | S fuel' =>
      if num_lt (num idx) (ToNumber len) then
        x ← get_index messageIds idx;
        cons x <$> copy_ids fuel' (S idx) messageIds len
      else Normal []
  end.

Definition searchMessageByIds (messageIds callback : jsval) : M unit :=
  empty ← lift (js_or (mret (negb (truthy messageIds)))
                  (len ← get messageIds "length";
                   mret (strict_eq_num len (num 0))));
  if empty : bool then
    sendErrorResponse callback
      (new_Error (JString _ERROR_MESSAGES.invalidMessageId)) JUndefined
  else
    len ← lift (get messageIds "length");
    if gt len 10 then
      sendErrorResponse callback
        (new_Error (JString _ERROR_MESSAGES.tooManyMessageId)) JUndefined
    else
      ids ← lift (copy_ids 11 0 messageIds len);
      let data := JObject [(js "ids", JArray ids)] in
      sendRequest _ENDPOINT.searchMessages data callback JUndefined.

Definition searchMessagesByRecipient (date to callback : jsval) : M unit :=
  if negb (truthy date) then
    sendErrorResponse callback
      (new_Error (JString _ERROR_MESSAGES.invalidDate)) JUndefined
  else if negb (truthy to) then
    sendErrorResponse callback
      (new_Error (JString _ERROR_MESSAGES.invalidRecipient)) JUndefined
  else
    let data := JObject [(js "date", date); (js "to", to)] in
    sendRequest _ENDPOINT.searchMessages data callback JUndefined.

Definition searchRejections (date to callback : jsval) : M unit :=
  if negb (truthy date) then
    sendErrorResponse callback
      (new_Error (JString _ERROR_MESSAGES.invalidDate)) JUndefined
  else
    let '(data, callback) :=
      if is_function to then ([(js "date", date)], to)
      else if truthy to then ([(js "date", date); (js "to", to)], callback)
      else ([(js "date", date)], callback) in
    sendRequest _ENDPOINT.searchRejections (JObject data) callback JUndefined.

(** *** Transport events

    The events the transport emits for the request with index [i] (its
    position in [requests]), and the handlers [sendRequest] attached to
    them.  The handlers for 'data', 'end' and 'close' are attached to the
    response object, inside the handler of 'response': before that event
    nothing listens to them. *)
Inductive event :=
| EvResponse
| EvData (chunk : jsstring)
| EvEnd
| EvClose (e : jsval)
| EvError (e : jsval).

Definition emit (i : nat) (ev : event) : M unit :=
  x ← read (λ w, exchanges w !! i);
  match x with
  | None => mret ()
  | Some x =>
      match ev with
      | EvResponse =>
          modify (set_exchange i {| callback := callback x;
                                    buffer := buffer x;
                                    responded := true |})
      | EvData chunk =>
          if responded x then
            modify (set_exchange i {| callback := callback x;
                                      buffer := buffer x ++ chunk;
                                      responded := true |})
          else mret ()
      | EvEnd =>
          if responded x then
            if truthy (callback x) then
              match JSON_parse (buffer x) with
              | inl responseData => call (callback x) [JNull; responseData]
              | inr parserError =>
                  call (callback x) [JError SyntaxError parserError; JUndefined]
              end
            else mret ()
          else mret ()
      | EvClose e =>
          if responded x then call (callback x) [e] else mret ()
      | EvError e => call (callback x) [e]
      end
  end.

(** Events are handled one after the other; an exception that escapes a
    handler is uncaught and ends the run. *)
Fixpoint emit_all (i : nat) (evs : list event) : M unit :=
  match evs with
  | [] => mret ()
  | ev :: rest => emit i ev;; emit_all i rest
  end.

(** *** The public interface as data *)
Inductive operation :=
| SendTextMessage (sender recipient message callback : jsval)
| SendBinaryMessage (sender recipient body udh callback : jsval)
| SendWapPushMessage (sender recipient title url validity callback : jsval)
| SendTTSMessage (sender recipient message callback : jsval)
| GetBalance (callback : jsval)
| GetPricing (countryCode callback : jsval)
| UpdateSecret (newSecret callback : jsval)
| UpdateMoCallBackUrl (newUrl callback : jsval)
| UpdateDrCallBackUrl (newUrl callback : jsval)
| GetTopUp (transactionId callback : jsval)
| GetNumbers (callback : jsval)
| SearchNumbers (countryCode pattern index size callback : jsval)
| BuyNumber (countryCode msisdn callback : jsval)
| CancelNumber (countryCode msisdn callback : jsval)
| UpdateNumberCallback (countryCode msisdn newUrl sysType callback : jsval)
| SearchMessage (messageId callback : jsval)
| SearchMessageByIds (messageIds callback : jsval)
| SearchMessagesByRecipient (date to callback : jsval)
| SearchRejections (date to callback : jsval).

Definition perform (op : operation) : M unit :=
  match op with
  | SendTextMessage a b c k => sendTextMessage a b c k
  | SendBinaryMessage a b c d k => sendBinaryMessage a b c d k
  | SendWapPushMessage a b c d e k => sendWapPushMessage a b c d e k
  | SendTTSMessage a b c k => sendTTSMessage a b c k
  | GetBalance k => getBalance k
  | GetPricing a k => getPricing a k
  | UpdateSecret a k => updateSecret a k
  | UpdateMoCallBackUrl a k => updateMoCallBackUrl a k
  | UpdateDrCallBackUrl a k => updateDrCallBackUrl a k
  | GetTopUp a k => getTopUp a k
  | GetNumbers k => getNumbers k
  | SearchNumbers a b c d k => searchNumbers a b c d k
  | BuyNumber a b k => buyNumber a b k
  | CancelNumber a b k => cancelNumber a b k
  | UpdateNumberCallback a b c d k => updateNumberCallback a b c d k
  | SearchMessage a k => searchMessage a k
  | SearchMessageByIds a k => searchMessageByIds a k
  | SearchMessagesByRecipient a b k => searchMessagesByRecipient a b k
  | SearchRejections a b k => searchRejections a b k
  end.
End Client.

(** ** A runtime to run the client on

    The theorems below hold for every [Runtime].  To evaluate the client on
    concrete calls, [sample_runtime] fixes one: numbers are written and read
    in decimal (integers, which is all the examples use), and [JSON_parse]
    decodes the response bodies listed in [sample_bodies] and rejects any
    other text the way [JSON.parse] rejects text that is not JSON. *)

Definition quoted (s : string) : jsstring := 34%N :: js s ++ [34%N].

(** [{"status":"1","error-text":"bad request"}] *)
Definition body_bad_request : jsstring :=
  js "{" ++ quoted "status" ++ js ":" ++ quoted "1" ++ js ","
  ++ quoted "error-text" ++ js ":" ++ quoted "bad request" ++ js "}".

Definition payload_bad_request : jsval :=
  JObject [(js "status", JString (js "1"));
           (js "error-text", JString (js "bad request"))].

(** [{"status":"1","error-text":""}] *)
Definition body_empty_error_text : jsstring :=
  js "{" ++ quoted "status" ++ js ":" ++ quoted "1" ++ js ","
  ++ quoted "error-text" ++ js ":" ++ quoted "" ++ js "}".

Definition payload_empty_error_text : jsval :=
  JObject [(js "status", JString (js "1")); (js "error-text", JString [])].

(** [{"message-count":"1","messages":[{"status":"2","error-text":"Missing to param"}]}],
    the shape in which the service reports a rejected message. *)
Definition body_rejected : jsstring :=
  js "{" ++ quoted "message-count" ++ js ":" ++ quoted "1" ++ js ","
  ++ quoted "messages" ++ js ":[{" ++ quoted "status" ++ js ":" ++ quoted "2"
  ++ js "," ++ quoted "error-text" ++ js ":" ++ quoted "Missing to param"
  ++ js "}]}".

Definition payload_rejected : jsval :=
  JObject [(js "message-count", JString (js "1"));
           (js "messages",
            JArray [JObject [(js "status", JString (js "2"));
                             (js "error-text", JString (js "Missing to param"))]])].

(** [{"status":"1","messages":[{"status":"2","error-text":"Missing to param"}]}] *)
Definition body_status_and_rejected : jsstring :=
  js "{" ++ quoted "status" ++ js ":" ++ quoted "1" ++ js ","
  ++ quoted "messages" ++ js ":[{" ++ quoted "status" ++ js ":" ++ quoted "2"
  ++ js "," ++ quoted "error-text" ++ js ":" ++ quoted "Missing to param"
  ++ js "}]}".

Definition payload_status_and_rejected : jsval :=
  JObject [(js "status", JString (js "1"));
           (js "messages",
            JArray [JObject [(js "status", JString (js "2"));
                             (js "error-text", JString (js "Missing to param"))]])].

(** [{"status":"1","messages":[]}] *)
Definition body_no_entries : jsstring :=
  js "{" ++ quoted "status" ++ js ":" ++ quoted "1" ++ js ","
  ++ quoted "messages" ++ js ":[]}".

Definition payload_no_entries : jsval :=
  JObject [(js "status", JString (js "1")); (js "messages", JArray [])].

(** [{"value":3}] *)
Definition body_balance : jsstring :=
  js "{" ++ quoted "value" ++ js ":3}".

Definition payload_balance : jsval :=
  JObject [(js "value", JNumber (num 3))].

Definition sample_bodies : list (jsstring * jsval) :=
  [(body_bad_request, payload_bad_request);
   (body_empty_error_text, payload_empty_error_text);
   (body_rejected, payload_rejected);
   (body_status_and_rejected, payload_status_and_rejected);
   (body_no_entries, payload_no_entries);
   (body_balance, payload_balance)].

Fixpoint sample_parse (table : list (jsstring * jsval)) (text : jsstring)
    : jsval + jsstring :=
  match table with
  | [] => inr (js "Unexpected token")
  | (body, payload) :: rest =>
      if decide (text = body) then inl payload else sample_parse rest text
  end.

Definition is_digit (c : N) : bool := ((48 <=? c) && (c <=? 57))%N.

(** A run of decimal digits as a number; the empty string is 0 and anything
    else NaN. *)
Definition sample_StringToNumber (s : jsstring) : jsnum :=
  if forallb is_digit s
  then Finite (Z.of_N (fold_left (λ acc c, 10 * acc + (c - 48)) s 0))%N 0
  else NaN.

(** Integers in decimal, with their sign. *)
Definition sample_NumberToString (x : jsnum) : jsstring :=
  match x with
  | NaN => js "NaN"
  | Infinity negative => js (if negative then "-Infinity" else "Infinity")
  | Finite m e =>
      let v := (m * 2 ^ e)%Z in
      let digits := decimal_digits (S (Z.to_nat (Z.log2 (Z.abs v))))
                                   (Z.to_N (Z.abs v)) [] in
      if (v <? 0)%Z then 45%N :: digits else digits
  end.

Definition sample_runtime : Runtime := {|
  JSON_parse := sample_parse sample_bodies;
  StringToNumber := sample_StringToNumber;
  NumberToString := sample_NumberToString;
  FunctionToString := λ _, js "function () { [native code] }";
|}.

(** ** Reading the state after a run *)

(** The invocations of the caller's function [id], oldest first. *)
Definition calls (id : nat) (w : world) : list (list jsval) :=
  omap (λ c, if decide (c.1 = id) then Some c.2 else None) (invocations w).

(** The continuation [sendRequest] ends up with: the third argument when that
    is a function, the fourth otherwise. *)
Definition continuation (method callback : jsval) : jsval :=
  if is_function method then method else callback.

(** The 'end', 'close' and 'error' events of a sequence that find a handler
    listening: 'error' always does, 'end' and 'close' once 'response' has been
    handled. *)
Fixpoint terminal_events (responded : bool) (evs : list event) : nat :=
  match evs with
  | [] => 0
  | EvResponse :: rest => terminal_events true rest
  | EvData _ :: rest => terminal_events responded rest
  | EvEnd :: rest | EvClose _ :: rest =>
      (if responded then 1 else 0) + terminal_events responded rest
  | EvError _ :: rest => 1 + terminal_events responded rest
  end.

(** The body the specification asks of a POST: the credentials, then the
    parameters when there are any, URL-encoded. *)
Definition encoded_body {RT : Runtime} (w : world) (data : jsval)
    : option jsstring :=
  credentials ← querystring_stringify
                  (JObject [(js "api_key", _apiKey w);
                            (js "api_secret", _apiSecret w)]);
  if truthy data
  then parameters ← querystring_stringify data;
       Some (credentials ++ js "&" ++ parameters)
  else Some credentials.




(** The method [sendRequest] works with once it has sorted out its trailing
    arguments. *)
Definition effective_method (method : jsval) : jsval :=
  if is_function method then JString (js "GET") else method.

(** The state [sendRequest] leaves behind when it has serialised [dataString]
    without a throw: the header object updated for a POST, one more request,
    and the handler state of that request. *)
Definition sent (endpoint dataString : jsstring) (method callback : jsval)
    (w : world) : world :=
  let post := strict_eq_string (effective_method method) "POST" in
  let w1 := if post
            then set_header "Content-Length"
                   (JNumber (num (length dataString))) w
            else w in
  add_request
    {| host := _BASE_URL;
       port := if _useHttps w then 443 else 80;
       path := if post then endpoint else endpoint ++ js "?" ++ dataString;
       method := effective_method method;
       headers := _HEADERS w1;
       secure := _useHttps w;
       written := if post then Some dataString else None |}
    {| callback := continuation method callback; buffer := [];
       responded := false |}
    w1.

(** The client after [init('key', 'secret')]. *)
Definition ready : world :=
  (initialize (JString (js "key")) (JString (js "secret")) JUndefined JUndefined
     Nexmo).2.

(** A caller's continuation [function (err, result) { ... }]. *)
Definition cb : jsval := JFunction 1 2.

(** The state in which a computation leaves the world. *)
Definition after (m : M unit) (w : world) : world := (m w).2.

(** On the sample runtime: a text message has been sent from the client
    [ready] with continuation [cb], the response has started and [body] has
    arrived; the 'end' event is still to come. *)
Definition text_message_answered (body : jsstring) : world :=
  after (sendTextMessage (RT := sample_runtime)
           (JString (js "Sender")) (JString (js "447700900000"))
           (JString (js "Hello")) cb;;
         emit_all (RT := sample_runtime) 0 [EvResponse; EvData body])
    ready.


Definition ascii_only (s : jsstring) : Prop := Forall (λ c, c < 128)%N s.

(** The settings of the client, as one value. *)
Definition settings (w : world)
    : jsval * jsval * bool * jsval * bool * gmap string jsval :=
  (_apiKey w, _apiSecret w, _useHttps w, _debugMode w, _initialized w,
   _HEADERS w).

(** A property of the state that a computation keeps. *)
Definition preserves (P : world → Prop) {A} (m : M A) : Prop :=
  ∀ w, P w → P (m w).2.

(** A property of the state that does not look at the continuations invoked. *)
Definition invocation_blind (P : world → Prop) : Prop :=
  ∀ w id args, P w → P (add_invocation id args w).

(** The two headers the module declares. *)
Definition standard_headers (h : gmap string jsval) : Prop :=
  h !! "Content-Type" = Some (JString (js "application/x-www-form-urlencoded"))
  ∧ h !! "accept" = Some (JString (js "application/json")).

Definition well_headed (w : world) : Prop :=
  standard_headers (_HEADERS w)
  ∧ Forall (λ r, standard_headers (headers r)) (requests w).

(** What can happen to a client: a call of [init], a call of an operation,
    a transport event on one of its requests.  A call that throws leaves the
    state it had reached, and the session goes on. *)
Inductive action :=
| Init (key secret protocol debug : jsval)
| Call (op : operation)
| Event (i : nat) (ev : event).

Definition act {RT : Runtime} (a : action) : M unit :=
  match a with
  | Init key secret protocol debug => initialize key secret protocol debug
  | Call op => perform op
  | Event i ev => emit i ev
  end.

Fixpoint session {RT : Runtime} (actions : list action) (w : world) : world :=
  match actions with
  | [] => w
  | a :: rest => session rest (after (act a) w)
  end.

(** The endpoint each operation is written for, and the operations written
    as POSTs. *)
Definition endpoint_of (op : operation) : jsstring :=
  match op with
  | SendTextMessage _ _ _ _ | SendBinaryMessage _ _ _ _ _
  | SendWapPushMessage _ _ _ _ _ _ => _ENDPOINT.sms
  | SendTTSMessage _ _ _ _ => _ENDPOINT.tts
  | GetBalance _ => _ENDPOINT.accountGetBalance
  | GetPricing _ _ => _ENDPOINT.accountPricing
  | UpdateSecret _ _ | UpdateMoCallBackUrl _ _ | UpdateDrCallBackUrl _ _ =>
      _ENDPOINT.accountSettings
  | GetTopUp _ _ => _ENDPOINT.accountTopUp
  | GetNumbers _ => _ENDPOINT.accountNumbers
  | SearchNumbers _ _ _ _ _ => _ENDPOINT.numberSearch
  | BuyNumber _ _ _ => _ENDPOINT.numberBuy
  | CancelNumber _ _ _ => _ENDPOINT.numberCancel
  | UpdateNumberCallback _ _ _ _ _ => _ENDPOINT.numberUpdate
  | SearchMessage _ _ => _ENDPOINT.searchMessage
  | SearchMessageByIds _ _ | SearchMessagesByRecipient _ _ _ =>
      _ENDPOINT.searchMessages
  | SearchRejections _ _ _ => _ENDPOINT.searchRejections
  end.

Definition posts (op : operation) : bool :=
  match op with
  | SendTextMessage _ _ _ _ | SendBinaryMessage _ _ _ _ _
  | SendWapPushMessage _ _ _ _ _ _ | SendTTSMessage _ _ _ _
  | UpdateSecret _ _ | UpdateMoCallBackUrl _ _ | UpdateDrCallBackUrl _ _
  | GetTopUp _ _ | BuyNumber _ _ _ | CancelNumber _ _ _ => true
  | _ => false
  end.

(** A computation that makes no request, or returns having made exactly one
    request, to [endpoint] on the service's host, without invoking a
    continuation; when [post] is set, that request is a POST with a body and
    no query string. *)
Definition routed (endpoint : jsstring) (post : bool) (m : M unit) : Prop :=
  ∀ w,
    requests (m w).2 = requests w
    ∨ ∃ r,
        (m w).1 = Normal ()
        ∧ requests (m w).2 = requests w ++ [r]
        ∧ invocations (m w).2 = invocations w
        ∧ host r = _BASE_URL
        ∧ endpoint `prefix_of` path r
        ∧ (post = true →
           method r = JString (js "POST") ∧ path r = endpoint
           ∧ is_Some (written r)).

(** A decoded payload with a truthy top-level status whose first message
    entry has the nonzero status -1. *)
Definition payload_negative_status : jsval :=
  JObject [(js "status", JString (js "1"));
           (js "messages",
            JArray [JObject [(js "status", JNumber (Finite (-1) 0));
                             (js "error-text", JString (js "Rejected"))]])].

(** The calls of [init] among the actions. *)
Definition is_init (a : action) : bool :=
  match a with
  | Init _ _ _ _ => true
  | _ => false
  end.

(** ** Encoding lemmas *)

Lemma unreserved_ascii (c : N) : unreserved c = true → (c < 128)%N.
Proof.
  unfold unreserved. intros Hc.
  repeat (apply orb_prop in Hc as [Hc | Hc]).
  - apply andb_prop in Hc as [_ Hc]. apply N.leb_le in Hc. lia.
  - apply andb_prop in Hc as [_ Hc]. apply N.leb_le in Hc. lia.
  - apply andb_prop in Hc as [_ Hc]. apply N.leb_le in Hc. lia.
  - apply bool_decide_eq_true in Hc.
    repeat (apply elem_of_cons in Hc as [-> | Hc]; [lia |]).
    by apply elem_of_nil in Hc.
Qed.

Lemma hex_digit_ascii (n : N) : (n < 16)%N → (hex_digit n < 128)%N.
Proof. unfold hex_digit. intros Hn. destruct (n <? 10)%N; lia. Qed.

Lemma percent_ascii (b : N) : ascii_only (percent b).
Proof.
  unfold ascii_only, percent. repeat constructor.
  - apply hex_digit_ascii, N.mod_lt. lia.
  - apply hex_digit_ascii, N.mod_lt. lia.
Qed.

Lemma percent_encode_ascii (cp : N) : ascii_only (percent_encode cp).
Proof.
  unfold percent_encode, ascii_only.
  induction (utf8 cp) as [| b bs IH]; [constructor |].
  change (flat_map percent (b :: bs)) with (percent b ++ flat_map percent bs).
  apply Forall_app_2; [apply percent_ascii | exact IH].
Qed.

Lemma encodeURIComponent_ascii_upto (n : nat) :
  ∀ s t, length s ≤ n → encodeURIComponent s = Some t → ascii_only t.
Proof.
  induction n as [| n IH]; intros s t Hlen Henc.
  - destruct s; [| simpl in Hlen; lia]. simpl in Henc.
    injection Henc as <-. constructor.
  - destruct s as [| c r]; simpl in Henc.
    { injection Henc as <-. constructor. }
    simpl in Hlen.
    destruct (unreserved c) eqn:Hu.
    { destruct (encodeURIComponent r) as [t' |] eqn:Hr; simplify_eq/=.
      constructor; [by apply unreserved_ascii |].
      apply (IH r); [lia | done]. }
    destruct (is_low_surrogate c); [done |].
    destruct (is_high_surrogate c).
    + destruct r as [| d r']; [done |].
      destruct (is_low_surrogate d); [| done].
      destruct (encodeURIComponent r') as [t' |] eqn:Hr; simplify_eq/=.
      apply Forall_app_2; [apply percent_encode_ascii |].
      apply (IH r'); [lia | done].
    + destruct (encodeURIComponent r) as [t' |] eqn:Hr; simplify_eq/=.
      apply Forall_app_2; [apply percent_encode_ascii |].
      apply (IH r); [lia | done].
Qed.

Lemma encodeURIComponent_ascii (s t : jsstring) :
  encodeURIComponent s = Some t → ascii_only t.
Proof. by apply (encodeURIComponent_ascii_upto (length s)). Qed.

Lemma join_ascii (sep : jsstring) (parts : list jsstring) :
  ascii_only sep → Forall ascii_only parts → ascii_only (join sep parts).
Proof.
  intros Hsep. induction 1 as [| p rest Hp Hrest IH]; [constructor |].
  simpl. destruct rest as [| q rest]; [done |].
  apply Forall_app_2; [done |]. apply Forall_app_2; done.
Qed.

Lemma stringify_pair_ascii {RT : Runtime} (kv : jsstring * jsval) (t : jsstring) :
  stringify_pair kv = Some t → ascii_only t.
Proof.
  destruct kv as [k v]. unfold stringify_pair. cbn [fst snd].
  destruct (encodeURIComponent k) as [ks |] eqn:Hk; [| done].
  cbn [fmap option_fmap option_map mbind option_bind].
  assert (Hks : ascii_only (ks ++ js "=")).
  { apply Forall_app_2; [by eapply encodeURIComponent_ascii |].
    repeat constructor. }
  assert (Hone : ∀ x u, app (ks ++ js "=") <$>
                          encodeURIComponent (stringifyPrimitive x) = Some u →
                        ascii_only u).
  { intros x u Hu.
    destruct (encodeURIComponent (stringifyPrimitive x)) as [e |] eqn:He;
      simplify_eq/=.
    apply Forall_app_2; [done | by eapply encodeURIComponent_ascii]. }
  destruct v; try (by apply Hone).
  intros Hl.
  destruct (mapM _ elements) as [parts |] eqn:Hparts; simplify_eq/=.
  apply join_ascii; [repeat constructor |].
  apply mapM_Some in Hparts.
  induction Hparts as [| x u l k' Hxu _ IH]; constructor; [| exact IH].
  by apply (Hone x).
Qed.

Lemma stringify_pairs_ascii {RT : Runtime} (props : list (jsstring * jsval))
    (t : jsstring) :
  join (js "&") <$> mapM stringify_pair props = Some t → ascii_only t.
Proof.
  intros Ht.
  destruct (mapM stringify_pair props) as [parts |] eqn:Hparts; simplify_eq/=.
  apply join_ascii; [repeat constructor |].
  apply mapM_Some in Hparts.
  induction Hparts as [| kv u l k' Hkv _ IH]; constructor; [| exact IH].
  by eapply stringify_pair_ascii.
Qed.

(** Whatever [querystring.stringify] returns is plain ASCII. *)
Lemma querystring_stringify_ascii {RT : Runtime} (obj : jsval) (t : jsstring) :
  querystring_stringify obj = Some t → ascii_only t.
Proof.
  destruct obj; simpl; try (intros [= <-]; constructor);
    apply stringify_pairs_ascii.
Qed.

(** On ASCII text the number of UTF-16 code units is the number of bytes. *)
Lemma byteLength_ascii (s : jsstring) : ascii_only s → byteLength s = length s.
Proof.
  induction 1 as [| c r Hc _ IH]; [done |].
  simpl. apply N.ltb_lt in Hc. rewrite Hc. by rewrite IH.
Qed.

Lemma encoded_body_ascii {RT : Runtime} (w : world) (data : jsval)
    (body : jsstring) :
  encoded_body w data = Some body → ascii_only body.
Proof.
  unfold encoded_body. intros Hb.
  destruct (querystring_stringify (JObject _)) as [c |] eqn:Hc; [| done].
  cbn [mbind option_bind] in Hb. apply querystring_stringify_ascii in Hc.
  destruct (truthy data); [| by simplify_eq].
  destruct (querystring_stringify data) as [p |] eqn:Hp; [| done].
  cbn [mbind option_bind] in Hb.
  assert (c ++ js "&" ++ p = body) as <- by congruence.
  apply querystring_stringify_ascii in Hp.
  apply Forall_app_2; [done |]. apply Forall_app_2; [repeat constructor | done].
Qed.

(** ** What [sendRequest] does *)

Lemma sendRequest_uninitialized {RT : Runtime} (w : world)
    (endpoint : jsstring) (data method callback : jsval) :
  _initialized w = false →
  sendRequest endpoint data method callback w
  = (Abrupt (Throw (JString _ERROR_MESSAGES.initializeRequired)), w).
Proof.
  intros Hi. unfold sendRequest, mbind, M_bind, read. by rewrite Hi.
Qed.

Lemma sendRequest_sent {RT : Runtime} (w : world) (endpoint : jsstring)
    (data method callback : jsval) (dataString : jsstring) :
  _initialized w = true →
  encoded_body w data = Some dataString →
  sendRequest endpoint data method callback w
  = (Normal (), sent endpoint dataString method callback w).
Proof.
  intros Hi Hb. unfold encoded_body in Hb.
  unfold sendRequest, sent, effective_method, continuation, stringify,
    mbind, M_bind, read, modify, mret, M_ret.
  rewrite Hi. cbn [negb].
  destruct (querystring_stringify (JObject _)) as [c |]; [| done].
  cbn [mbind option_bind] in Hb.
  destruct (truthy data).
  - destruct (querystring_stringify data) as [p |]; [| done].
    cbn [mbind option_bind] in Hb.
    assert (c ++ js "&" ++ p = dataString) as <- by congruence.
    destruct (is_function method);
      destruct (strict_eq_string _ _); reflexivity.
  - assert (c = dataString) as <- by congruence.
    destruct (is_function method);
      destruct (strict_eq_string _ _); reflexivity.
Qed.

Lemma sendRequest_unencodable {RT : Runtime} (w : world) (endpoint : jsstring)
    (data method callback : jsval) :
  _initialized w = true →
  encoded_body w data = None →
  sendRequest endpoint data method callback w = (Abrupt URIError, w).
Proof.
  intros Hi Hb. unfold encoded_body in Hb.
  unfold sendRequest, stringify, mbind, M_bind, read, throw, mret, M_ret.
  rewrite Hi. cbn [negb].
  destruct (querystring_stringify (JObject _)) as [c |]; [| done].
  cbn [mbind option_bind] in Hb.
  destruct (truthy data); [| done].
  destruct (querystring_stringify data) as [p |]; done.
Qed.

(** ** The request built for a POST *)

(** C7.  For a POST, [sendRequest] writes the URL-encoded credentials and
    parameters as the body of the request, sets the Content-Length header to
    the number of bytes of that body (the encoded body is ASCII, whatever
    characters the parameters contain, so its length in code units is its
    length in bytes), and leaves the path without a query string. *)
Theorem sendRequest_POST_body_and_length {RT : Runtime} (w : world)
    (endpoint : jsstring) (data callback : jsval) (body : jsstring) :
  _initialized w = true →
  encoded_body w data = Some body →
  ∃ r w',
    sendRequest endpoint data (JString (js "POST")) callback w = (Normal (), w')
    ∧ requests w' = requests w ++ [r]
    ∧ method r = JString (js "POST")
    ∧ written r = Some body
    ∧ headers r !! "Content-Length" = Some (JNumber (num (byteLength body)))
    ∧ path r = endpoint.
Proof.
  intros Hi Hb.
  eexists _, _. split; [by apply sendRequest_sent |].
  unfold sent. cbn [effective_method is_function].
  change (strict_eq_string (JString (js "POST")) "POST") with true.
  cbn [add_request requests method written headers path set_header _HEADERS].
  repeat split. cbn [headers].
  rewrite lookup_insert_eq.
  by rewrite (byteLength_ascii body (encoded_body_ascii _ _ _ Hb)).
Qed.

(** The parameter [text] is the single character U+00E9, two bytes in UTF-8. *)
Lemma sendRequest_POST_body_and_length_witness :
  ∃ r w',
    sendRequest (RT := sample_runtime) _ENDPOINT.sms
      (JObject [(js "text", JString [233%N])]) (JString (js "POST")) cb ready
    = (Normal (), w')
    ∧ requests w' = requests ready ++ [r]
    ∧ method r = JString (js "POST")
    ∧ written r = Some (js "api_key=key&api_secret=secret&text=%C3%A9")
    ∧ headers r !! "Content-Length"
      = Some (JNumber (num (byteLength
                              (js "api_key=key&api_secret=secret&text=%C3%A9"))))
    ∧ path r = _ENDPOINT.sms.
Proof.
  apply (sendRequest_POST_body_and_length (RT := sample_runtime)).
  - reflexivity.
  - vm_compute. reflexivity.
Defined.

(** ** The handlers of a request *)

Lemma calls_add_invocation (id id' : nat) (args : list jsval) (w : world) :
  calls id (add_invocation id' args w)
  = calls id w ++ (if decide (id' = id) then [args] else []).
Proof.
  unfold calls. cbn [invocations add_invocation]. rewrite omap_app.
  f_equal. cbn. by destruct (decide (id' = id)).
Qed.

Lemma calls_set_exchange (id i : nat) (x : exchange) (w : world) :
  calls id (set_exchange i x w) = calls id w.
Proof. reflexivity. Qed.

Lemma call_function {RT : Runtime} (id arity : nat) (args : list jsval)
    (w : world) :
  call (JFunction id arity) args w = (Normal (), add_invocation id args w).
Proof. reflexivity. Qed.

(** One event, on a request whose continuation is a function of the caller:
    the handler returns, the request keeps its continuation, and the
    continuation has been invoked once more exactly when the event is an
    'error', or an 'end' or 'close' after 'response'. *)
Lemma emit_step {RT : Runtime} (w : world) (i : nat) (x : exchange)
    (id arity : nat) (ev : event) :
  exchanges w !! i = Some x →
  callback x = JFunction id arity →
  ∃ w' x',
    emit i ev w = (Normal (), w')
    ∧ exchanges w' !! i = Some x'
    ∧ callback x' = JFunction id arity
    ∧ responded x' = match ev with EvResponse => true | _ => responded x end
    ∧ length (calls id w')
      = length (calls id w) + terminal_events (responded x) [ev].
Proof.
  intros Hx Hcb.
  assert (Hi : i < length (exchanges w)) by by eapply lookup_lt_Some.
  unfold emit, mbind, M_bind, read. rewrite Hx.
  destruct ev as [| chunk | | e | e];
    (destruct (responded x) eqn:Hr;
     [| try (exists w, x; repeat split; try done; simpl; lia)]);
    rewrite ?Hcb; cbn [truthy]; try destruct (JSON_parse (buffer x));
    rewrite ?call_function;
    eexists _, _; (split; [reflexivity |]);
    cbn [set_exchange add_invocation exchanges];
    rewrite ?list_lookup_insert_eq by done;
    (split; [done |]); repeat split; try congruence;
    rewrite ?calls_set_exchange, ?calls_add_invocation, ?decide_True,
      ?length_app by done;
    simpl; lia.
Qed.

Lemma terminal_events_cons (responded : bool) (ev : event) (evs : list event) :
  terminal_events responded (ev :: evs)
  = terminal_events responded [ev]
    + terminal_events (match ev with EvResponse => true | _ => responded end) evs.
Proof. destruct ev; simpl; lia. Qed.

Lemma emit_all_count {RT : Runtime} (evs : list event) :
  ∀ (w : world) (i : nat) (x : exchange) (id arity : nat),
    exchanges w !! i = Some x →
    callback x = JFunction id arity →
    ∃ w',
      emit_all i evs w = (Normal (), w')
      ∧ length (calls id w')
        = length (calls id w) + terminal_events (responded x) evs.
Proof.
  induction evs as [| ev evs IH]; intros w i x id arity Hx Hcb.
  - exists w. split; [reflexivity | simpl; lia].
  - destruct (emit_step w i x id arity ev Hx Hcb)
      as (w1 & x1 & Hrun & Hx1 & Hcb1 & Hr1 & Hn1).
    destruct (IH w1 i x1 id arity Hx1 Hcb1) as (w2 & Hrest & Hn2).
    exists w2. split.
    + cbn [emit_all]. unfold mbind, M_bind. by rewrite Hrun.
    + rewrite Hn2, Hn1, Hr1, (terminal_events_cons _ ev evs). lia.
Qed.

Lemma sendRequest_returns {RT : Runtime} (w w' : world) (endpoint : jsstring)
    (data method callback : jsval) :
  sendRequest endpoint data method callback w = (Normal (), w') →
  ∃ dataString,
    _initialized w = true
    ∧ encoded_body w data = Some dataString
    ∧ w' = sent endpoint dataString method callback w.
Proof.
  intros Hrun.
  destruct (_initialized w) eqn:Hi.
  - destruct (encoded_body w data) as [dataString |] eqn:Hb.
    + exists dataString. repeat split.
      rewrite (sendRequest_sent w endpoint data method callback dataString)
        in Hrun by done.
      congruence.
    + by rewrite sendRequest_unencodable in Hrun.
  - by rewrite sendRequest_uninitialized in Hrun.
Qed.

Lemma sent_exchange (endpoint dataString : jsstring) (method callback : jsval)
    (w : world) :
  exchanges (sent endpoint dataString method callback w)
  !! length (exchanges w)
  = Some {| callback := continuation method callback; buffer := [];
            responded := false |}.
Proof.
  unfold sent.
  destruct (strict_eq_string _ _); cbn [add_request set_header exchanges];
    by rewrite lookup_app_r, Nat.sub_diag.
Qed.

Lemma sent_calls (id : nat) (endpoint dataString : jsstring)
    (method callback : jsval) (w : world) :
  calls id (sent endpoint dataString method callback w) = calls id w.
Proof. unfold sent. by destruct (strict_eq_string _ _). Qed.

(** ** How often the continuation is invoked *)

(** C1, as the code has it.  Once [sendRequest] has handed a request to the
    transport with a function of the caller as continuation, every sequence of
    transport events is handled without a throw, and the continuation is
    invoked once for each terminal event that finds a handler: each 'error',
    and each 'end' or 'close' that comes after 'response'.  It is invoked
    exactly once exactly when the sequence has one such event. *)
Theorem continuation_invoked_per_terminal_event {RT : Runtime} (w w' : world)
    (endpoint : jsstring) (data method callback : jsval) (id arity : nat)
    (evs : list event) :
  sendRequest endpoint data method callback w = (Normal (), w') →
  continuation method callback = JFunction id arity →
  ∃ w'',
    emit_all (length (exchanges w)) evs w' = (Normal (), w'')
    ∧ length (calls id w'') = length (calls id w) + terminal_events false evs.
Proof.
  intros Hrun Hk.
  destruct (sendRequest_returns _ _ _ _ _ _ Hrun) as (ds & _ & _ & ->).
  destruct (emit_all_count evs _ _ _ id arity
              (sent_exchange endpoint ds method callback w) Hk)
    as (w'' & Hev & Hn).
  exists w''. split; [done |]. by rewrite Hn, sent_calls.
Qed.

Lemma continuation_invoked_per_terminal_event_witness :
  ∃ w'',
    emit_all (RT := sample_runtime) (length (exchanges ready))
      [EvResponse; EvData body_balance; EvEnd]
      (after (getBalance (RT := sample_runtime) cb) ready)
    = (Normal (), w'')
    ∧ length (calls 1 w'')
      = length (calls 1 ready)
        + terminal_events false [EvResponse; EvData body_balance; EvEnd].
Proof.
  apply (continuation_invoked_per_terminal_event (RT := sample_runtime)
           ready _ _ENDPOINT.accountGetBalance JNull cb JUndefined 1 2).
  - reflexivity.
  - reflexivity.
Defined.

(** C1 as stated fails: 'end' followed by 'close' on one request invokes the
    continuation of [getBalance] twice, first with the decoded balance, then
    with the argument of 'close'. *)
Lemma continuation_invoked_twice_by_end_then_close :
  calls 1
    (after (getBalance (RT := sample_runtime) cb;;
            emit_all (RT := sample_runtime) 0
              [EvResponse; EvData body_balance; EvEnd; EvClose JUndefined])
       ready)
  = [[JNull; payload_balance]; [JUndefined]].
Proof. vm_compute. reflexivity. Qed.

(** ** Decode failures *)

(** C2, as the code has it.  When the accumulated body is not JSON, the 'end'
    handler invokes the continuation once, with the parse error as first
    argument; the second argument is [undefined], not the body received. *)
Theorem decode_failure_passes_undefined {RT : Runtime} (w : world) (i : nat)
    (x : exchange) (id arity : nat) (parserError : jsstring) :
  exchanges w !! i = Some x →
  callback x = JFunction id arity →
  responded x = true →
  JSON_parse (buffer x) = inr parserError →
  emit i EvEnd w
  = (Normal (),
     add_invocation id [JError SyntaxError parserError; JUndefined] w).
Proof.
  intros Hx Hcb Hr Hparse.
  unfold emit, mbind, M_bind, read. by rewrite Hx, Hr, Hcb, Hparse.
Qed.

Lemma decode_failure_passes_undefined_witness :
  emit (RT := sample_runtime) 0 EvEnd
    (after (getBalance (RT := sample_runtime) cb;;
            emit_all (RT := sample_runtime) 0 [EvResponse; EvData (js "<html>")])
       ready)
  = (Normal (),
     add_invocation 1 [JError SyntaxError (js "Unexpected token"); JUndefined]
       (after (getBalance (RT := sample_runtime) cb;;
               emit_all (RT := sample_runtime) 0
                 [EvResponse; EvData (js "<html>")])
          ready)).
Proof.
  apply (decode_failure_passes_undefined (RT := sample_runtime) _ 0
           {| callback := cb; buffer := js "<html>"; responded := true |} 1 2).
  - reflexivity.
  - reflexivity.
  - reflexivity.
  - reflexivity.
Defined.

(** ** Transport failures without a continuation *)

(** C8, as the code has it.  On a request made without a continuation the
    'error' handler, and after 'response' the 'close' handler, call the
    missing continuation and so throw a TypeError out of the event handler;
    only the 'end' handler checks that there is a continuation. *)
Theorem transport_failure_without_continuation_throws {RT : Runtime}
    (w : world) (i : nat) (x : exchange) (e : jsval) :
  exchanges w !! i = Some x →
  truthy (callback x) = false →
  (emit i (EvError e) w).1 = Abrupt TypeError
  ∧ (emit_all i [EvResponse; EvClose e] w).1 = Abrupt TypeError
  ∧ (emit_all i [EvResponse; EvEnd] w).1 = Normal ()
  ∧ invocations (after (emit i (EvError e)) w) = invocations w
  ∧ invocations (after (emit_all i [EvResponse; EvClose e]) w) = invocations w.
Proof.
  intros Hx Hcb.
  assert (Hi : i < length (exchanges w)) by by eapply lookup_lt_Some.
  unfold after, emit_all, emit, mbind, M_bind, read, modify. rewrite Hx.
  cbn [set_exchange exchanges]. rewrite list_lookup_insert_eq by done.
  cbn [responded callback]. rewrite Hcb.
  destruct (callback x); try discriminate Hcb; done.
Qed.

Lemma transport_failure_without_continuation_throws_witness :
  (emit (RT := sample_runtime) 0 (EvError (JError PlainError (js "socket hang up")))
     (after (getBalance (RT := sample_runtime) JUndefined) ready)).1
  = Abrupt TypeError
  ∧ (emit_all (RT := sample_runtime) 0
       [EvResponse; EvClose (JError PlainError (js "socket hang up"))]
       (after (getBalance (RT := sample_runtime) JUndefined) ready)).1
    = Abrupt TypeError
  ∧ (emit_all (RT := sample_runtime) 0 [EvResponse; EvEnd]
       (after (getBalance (RT := sample_runtime) JUndefined) ready)).1
    = Normal ()
  ∧ invocations
      (after (emit (RT := sample_runtime) 0
                (EvError (JError PlainError (js "socket hang up"))))
         (after (getBalance (RT := sample_runtime) JUndefined) ready))
    = invocations (after (getBalance (RT := sample_runtime) JUndefined) ready)
  ∧ invocations
      (after (emit_all (RT := sample_runtime) 0
                [EvResponse; EvClose (JError PlainError (js "socket hang up"))])
         (after (getBalance (RT := sample_runtime) JUndefined) ready))
    = invocations (after (getBalance (RT := sample_runtime) JUndefined) ready).
Proof.
  apply (transport_failure_without_continuation_throws (RT := sample_runtime)
           (after (getBalance (RT := sample_runtime) JUndefined) ready) 0
           {| callback := JUndefined; buffer := []; responded := false |}).
  - reflexivity.
  - reflexivity.
Defined.

(** ** The send guard *)

Lemma emit_end_decoded {RT : Runtime} (w : world) (i : nat) (x : exchange)
    (apiResponse : jsval) :
  exchanges w !! i = Some x →
  truthy (callback x) = true →
  responded x = true →
  JSON_parse (buffer x) = inl apiResponse →
  emit i EvEnd w = call (callback x) [JNull; apiResponse] w.
Proof.
  intros Hx Hcb Hr Hparse.
  unfold emit, mbind, M_bind, read. by rewrite Hx, Hr, Hcb, Hparse.
Qed.

Lemma call_guard {RT : Runtime} (callback err apiResponse : jsval) (w : world) :
  call (JSendGuard callback) [err; apiResponse] w
  = send_guard (call callback) callback err apiResponse w.
Proof. reflexivity. Qed.

(** Unfolds the guard on a decoded payload ([err] is [null]) up to its first
    property access. *)
Ltac enter_guard :=
  rewrite call_guard;
  unfold send_guard, sendErrorResponse_via, js_and, mbind, M_bind, lift;
  cbn [truthy negb mret completion_ret completion_bind].

(** Every send operation goes through [sendMessage], and the continuation
    [sendMessage] gives to [sendRequest] is the guard around the caller's. *)
Lemma sendMessage_sent {RT : Runtime} (w : world) (data : jsval)
    (endpoint : jsstring) (callback from to : jsval) (dataString : jsstring) :
  get data "from" = Normal from → truthy from = true →
  get data "to" = Normal to → truthy to = true →
  _initialized w = true →
  encoded_body w data = Some dataString →
  sendMessage data endpoint callback w
  = (Normal (),
     sent endpoint dataString (JString (js "POST")) (JSendGuard callback) w).
Proof.
  intros Hfrom Hf Hto Ht Hi Hb.
  unfold sendMessage, mbind, M_bind, lift. rewrite Hfrom, Hf, Hto, Ht.
  by apply sendRequest_sent.
Qed.

(** Whatever it is given, the guard around a caller's function either
    invokes that function once and returns, or throws a TypeError (a property
    of [undefined] or [null] was read) without invoking it. *)
Lemma call_guard_once_or_fault {RT : Runtime} (id arity : nat)
    (args : list jsval) (w : world) :
  (∃ args', call (JSendGuard (JFunction id arity)) args w
            = (Normal (), add_invocation id args' w))
  ∨ call (JSendGuard (JFunction id arity)) args w = (Abrupt TypeError, w).
Proof.
  cbn [call].
  unfold send_guard, sendErrorResponse_via, js_and, mbind, M_bind, lift.
  cbn [truthy mret completion_ret completion_bind fmap completion_fmap].
  generalize (arg 0 args) (arg 1 args). intros err apiResponse.
  assert (Hget : ∀ v name, get v name = Abrupt TypeError ∨ ∃ r, get v name = Normal r).
  { intros v name. destruct v; cbn [get]; eauto. }
  assert (Hidx : ∀ v n, get_index v n = Abrupt TypeError
                        ∨ ∃ r, get_index v n = Normal r).
  { intros v n. destruct v; cbn [get_index]; eauto. }
  destruct (truthy err);
    cbn [negb mret completion_ret completion_bind fmap completion_fmap];
    [left; eexists; reflexivity |].
  destruct (Hget apiResponse "status") as [-> | [status ->]];
    cbn [negb mret completion_ret completion_bind fmap completion_fmap]; [by right |].
  destruct (truthy status);
    cbn [negb mret completion_ret completion_bind fmap completion_fmap];
    [| left; eexists; reflexivity].
  destruct (Hget apiResponse "error-text") as [-> | [text ->]];
    cbn [negb mret completion_ret completion_bind fmap completion_fmap]; [by right |].
  destruct (truthy text);
    cbn [negb mret completion_ret completion_bind fmap completion_fmap];
    [left; eexists; reflexivity |].
  destruct (Hget apiResponse "messages") as [-> | [messages ->]];
    cbn [negb mret completion_ret completion_bind fmap completion_fmap]; [by right |].
  destruct (truthy messages);
    cbn [negb mret completion_ret completion_bind fmap completion_fmap];
    [| left; eexists; reflexivity].
  destruct (Hidx messages 0) as [-> | [entry ->]];
    cbn [negb mret completion_ret completion_bind fmap completion_fmap]; [by right |].
  destruct (Hget entry "status") as [-> | [code ->]];
    cbn [negb mret completion_ret completion_bind fmap completion_fmap]; [by right |].
  destruct (gt code 0);
    cbn [negb mret completion_ret completion_bind fmap completion_fmap];
    [| left; eexists; reflexivity].
  destruct (Hget entry "error-text") as [-> | [reason ->]]; [by right |].
  left; eexists; reflexivity.
Qed.

(** C6, as the code has it.  When the decoded payload of a send operation has
    a truthy top-level status and a truthy (for a string: non-empty)
    error-text, the continuation receives an Error made from that error
    text, and no payload. *)
Theorem top_level_error_text_is_reported {RT : Runtime} (w : world) (i : nat)
    (x : exchange) (id arity : nat) (apiResponse status text : jsval) :
  exchanges w !! i = Some x →
  callback x = JSendGuard (JFunction id arity) →
  responded x = true →
  JSON_parse (buffer x) = inl apiResponse →
  get apiResponse "status" = Normal status →
  truthy status = true →
  get apiResponse "error-text" = Normal text →
  truthy text = true →
  emit i EvEnd w = (Normal (), add_invocation id [new_Error text; JUndefined] w).
Proof.
  intros Hx Hcb Hr Hparse Hs Hst He Het.
  rewrite (emit_end_decoded w i x apiResponse) by (by rewrite ?Hcb).
  rewrite Hcb. enter_guard.
  rewrite Hs. cbn [fmap completion_fmap]. rewrite Hst, He.
  cbn [fmap completion_fmap]. by rewrite Het.
Qed.

Lemma top_level_error_text_is_reported_witness :
  emit (RT := sample_runtime) 0 EvEnd (text_message_answered body_bad_request)
  = (Normal (),
     add_invocation 1
       [new_Error (RT := sample_runtime) (JString (js "bad request")); JUndefined]
       (text_message_answered body_bad_request)).
Proof.
  apply (top_level_error_text_is_reported (RT := sample_runtime) _ 0
           {| callback := JSendGuard cb; buffer := body_bad_request;
              responded := true |} 1 2 payload_bad_request
           (JString (js "1")) (JString (js "bad request"))).
  - reflexivity.
  - reflexivity.
  - reflexivity.
  - vm_compute. reflexivity.
  - reflexivity.
  - reflexivity.
  - reflexivity.
  - reflexivity.
Defined.

(** C6 as stated fails when the error-text field is there but empty: the body
    [{"status":"1","error-text":""}] is delivered as a success, error [null]
    and the payload. *)
Lemma empty_error_text_is_delivered_as_success :
  (emit (RT := sample_runtime) 0 EvEnd
     (text_message_answered body_empty_error_text)).1 = Normal ()
  ∧ calls 1 (after (emit (RT := sample_runtime) 0 EvEnd)
               (text_message_answered body_empty_error_text))
    = [[JNull; payload_empty_error_text]].
Proof. split; vm_compute; reflexivity. Qed.

(** C3, as the code has it.  The first entry of the messages list is looked
    at only when the payload also has a truthy top-level status (and no
    truthy top-level error-text, which would be reported instead).  Then, when
    that entry's status compares greater than zero, the continuation receives
    an Error made from the entry's error text, and no payload. *)
Theorem first_entry_error_text_is_reported {RT : Runtime} (w : world) (i : nat)
    (x : exchange) (id arity : nat)
    (apiResponse status text messages entry code reason : jsval) :
  exchanges w !! i = Some x →
  callback x = JSendGuard (JFunction id arity) →
  responded x = true →
  JSON_parse (buffer x) = inl apiResponse →
  get apiResponse "status" = Normal status →
  truthy status = true →
  get apiResponse "error-text" = Normal text →
  truthy text = false →
  get apiResponse "messages" = Normal messages →
  truthy messages = true →
  get_index messages 0 = Normal entry →
  get entry "status" = Normal code →
  gt code 0 = true →
  get entry "error-text" = Normal reason →
  emit i EvEnd w
  = (Normal (), add_invocation id [new_Error reason; JUndefined] w).
Proof.
  intros Hx Hcb Hr Hparse Hs Hst He Het Hm Hmt Hen Hc Hgt Hre.
  rewrite (emit_end_decoded w i x apiResponse) by (by rewrite ?Hcb).
  rewrite Hcb. enter_guard.
  rewrite Hs. cbn [fmap completion_fmap]. rewrite Hst, He.
  cbn [fmap completion_fmap]. rewrite Het, Hm.
  cbn [fmap completion_fmap]. rewrite Hmt. unfold mbind. cbn [completion_bind].
  rewrite Hen. cbn [completion_bind]. rewrite Hc. cbn [completion_bind].
  unfold mret, completion_ret. rewrite Hgt, Hre. reflexivity.
Qed.

Lemma first_entry_error_text_is_reported_witness :
  emit (RT := sample_runtime) 0 EvEnd
    (text_message_answered body_status_and_rejected)
  = (Normal (),
     add_invocation 1
       [new_Error (RT := sample_runtime) (JString (js "Missing to param"));
        JUndefined]
       (text_message_answered body_status_and_rejected)).
Proof.
  apply (first_entry_error_text_is_reported (RT := sample_runtime) _ 0
           {| callback := JSendGuard cb; buffer := body_status_and_rejected;
              responded := true |} 1 2 payload_status_and_rejected
           (JString (js "1")) JUndefined
           (JArray [JObject [(js "status", JString (js "2"));
                             (js "error-text", JString (js "Missing to param"))]])
           (JObject [(js "status", JString (js "2"));
                     (js "error-text", JString (js "Missing to param"))])
           (JString (js "2")) (JString (js "Missing to param"))).
  - reflexivity.
  - reflexivity.
  - reflexivity.
  - vm_compute. reflexivity.
  - reflexivity.
  - reflexivity.
  - reflexivity.
  - reflexivity.
  - reflexivity.
  - reflexivity.
  - reflexivity.
  - reflexivity.
  - reflexivity.
  - reflexivity.
Defined.

(** C3 as stated fails in two ways.  The payload the service sends for a
    rejected message has no top-level status:
    [{"message-count":"1","messages":[{"status":"2","error-text":"Missing to param"}]}]
    is delivered as a success, error [null] and the payload.  And with a
    truthy top-level status, a first entry whose status is nonzero but not
    greater than zero (here -1) is delivered as a success too: the guard, run
    on [null] and that payload, invokes the continuation with both. *)
Lemma rejected_message_is_delivered_as_success :
  ((emit (RT := sample_runtime) 0 EvEnd (text_message_answered body_rejected)).1
   = Normal ()
   ∧ calls 1 (after (emit (RT := sample_runtime) 0 EvEnd)
                (text_message_answered body_rejected))
     = [[JNull; payload_rejected]])
  ∧ call (RT := sample_runtime) (JSendGuard cb) [JNull; payload_negative_status]
      ready
    = (Normal (), add_invocation 1 [JNull; payload_negative_status] ready).
Proof. repeat split; vm_compute; reflexivity. Qed.

(** C10, as the code has it.  With a truthy top-level status, no truthy
    error-text and an empty messages list, reading the status of the first
    entry is reading a property of [undefined]: the guard throws a TypeError
    and the caller's continuation is not invoked. *)
Theorem empty_messages_list_faults {RT : Runtime} (w : world) (i : nat)
    (x : exchange) (callback' apiResponse status text : jsval) :
  exchanges w !! i = Some x →
  callback x = JSendGuard callback' →
  responded x = true →
  JSON_parse (buffer x) = inl apiResponse →
  get apiResponse "status" = Normal status →
  truthy status = true →
  get apiResponse "error-text" = Normal text →
  truthy text = false →
  get apiResponse "messages" = Normal (JArray []) →
  emit i EvEnd w = (Abrupt TypeError, w).
Proof.
  intros Hx Hcb Hr Hparse Hs Hst He Het Hm.
  rewrite (emit_end_decoded w i x apiResponse) by (by rewrite ?Hcb).
  rewrite Hcb. enter_guard.
  rewrite Hs. cbn [fmap completion_fmap]. rewrite Hst, He.
  cbn [fmap completion_fmap]. rewrite Het, Hm. reflexivity.
Qed.

Lemma empty_messages_list_faults_witness :
  emit (RT := sample_runtime) 0 EvEnd (text_message_answered body_no_entries)
  = (Abrupt TypeError, text_message_answered body_no_entries).
Proof.
  apply (empty_messages_list_faults (RT := sample_runtime) _ 0
           {| callback := JSendGuard cb; buffer := body_no_entries;
              responded := true |} cb payload_no_entries
           (JString (js "1")) JUndefined).
  - reflexivity.
  - reflexivity.
  - reflexivity.
  - vm_compute. reflexivity.
  - reflexivity.
  - reflexivity.
  - reflexivity.
  - reflexivity.
  - reflexivity.
Defined.

(** ** Validation failures of the account operations *)

Lemma gt_length (RT : Runtime) (n k : nat) :
  k < n → gt (JNumber (num n)) k = true.
Proof.
  intros Hkn. unfold gt, num_lt, num, ToNumber, scaled.
  rewrite Z.min_id, Z.sub_diag. apply Z.ltb_lt. lia.
Qed.

(** C4, as the code has it.  The validation branch of [updateSecret],
    [updateMoCallBackUrl], [updateDrCallBackUrl] and [getTopUp] calls
    [sendError], which does not exist: with an empty argument, or a new secret
    of more than 8 characters, the call raises a ReferenceError, whether or
    not a continuation was supplied, and the continuation is not invoked. *)
Theorem account_validation_raises_ReferenceError {RT : Runtime}
    (v callback : jsval) (secret : jsstring) (w : world) :
  truthy v = false →
  8 < length secret →
  updateSecret v callback w = (Abrupt (ReferenceError "sendError"), w)
  ∧ updateSecret (JString secret) callback w
    = (Abrupt (ReferenceError "sendError"), w)
  ∧ updateMoCallBackUrl v callback w = (Abrupt (ReferenceError "sendError"), w)
  ∧ updateDrCallBackUrl v callback w = (Abrupt (ReferenceError "sendError"), w)
  ∧ getTopUp v callback w = (Abrupt (ReferenceError "sendError"), w).
Proof.
  intros Hv Hlen.
  unfold updateSecret, updateMoCallBackUrl, updateDrCallBackUrl, getTopUp,
    js_or, mbind, M_bind, lift.
  cbn [mret completion_ret completion_bind]. rewrite Hv. cbn [negb].
  repeat split.
  destruct secret as [| c secret]; [simpl in Hlen; lia |].
  cbn [truthy negb get]. rewrite bool_decide_eq_false_2 by done.
  cbn [negb]. rewrite bool_decide_eq_true_2 by done.
  cbn [completion_bind]. by rewrite gt_length.
Qed.

Lemma account_validation_raises_ReferenceError_witness :
  updateSecret (RT := sample_runtime) (JString []) cb ready
  = (Abrupt (ReferenceError "sendError"), ready)
  ∧ updateSecret (RT := sample_runtime) (JString (js "123456789")) cb ready
    = (Abrupt (ReferenceError "sendError"), ready)
  ∧ updateMoCallBackUrl (RT := sample_runtime) (JString []) cb ready
    = (Abrupt (ReferenceError "sendError"), ready)
  ∧ updateDrCallBackUrl (RT := sample_runtime) (JString []) cb ready
    = (Abrupt (ReferenceError "sendError"), ready)
  ∧ getTopUp (RT := sample_runtime) (JString []) cb ready
    = (Abrupt (ReferenceError "sendError"), ready).
Proof.
  apply (account_validation_raises_ReferenceError (RT := sample_runtime)).
  - reflexivity.
  - vm_compute. lia.
Defined.

(** The other operations report a rejected argument with
    [sendErrorResponse], which does reach the continuation. *)
Lemma country_code_validation_reaches_continuation {RT : Runtime}
    (id arity : nat) (w : world) :
  getPricing (JString (js "USA")) (JFunction id arity) w
  = (Normal (),
     add_invocation id
       [JError PlainError _ERROR_MESSAGES.invalidCountryCode; JUndefined] w).
Proof. reflexivity. Qed.

(** ** Operations on a client that was not initialised *)

















Lemma num_lt_above (x : jsnum) (a b : nat) :
  a ≤ b → num_lt (num a) x = false → num_lt (num b) x = false.
Proof.
  intros Hab. destruct x as [| [] | m e]; cbn; try done.
  rewrite !Z.ltb_ge. unfold scaled.
  assert (0 < 2 ^ (0 - 0 `min` e))%Z by (apply Z.pow_pos_nonneg; lia).
  nia.
Qed.

(** Eleven rounds are enough for the copy loop: once [len > 10] is false, the
    loop stops on its own test, and more fuel copies nothing more. *)
Lemma copy_ids_fuel {RT : Runtime} (messageIds len : jsval) (extra : nat) :
  gt len 10 = false →
  ∀ fuel idx, 10 < fuel + idx →
    copy_ids (fuel + extra) idx messageIds len
    = copy_ids fuel idx messageIds len.
Proof.
  intros Hgt. unfold gt in Hgt.
  induction fuel as [| fuel IH]; intros idx Hidx.
  - cbn [Nat.add copy_ids]. destruct extra; [done |]. cbn [copy_ids].
    by rewrite (num_lt_above _ 10 idx) by (done || lia).
  - cbn [Nat.add copy_ids]. destruct (num_lt (num idx) _); [| done].
    destruct (get_index messageIds idx); [| done].
    cbn. by rewrite IH by lia.
Qed.








(** ** The shared header object *)

(** C9, as the code has it.  [sendRequest] stores the Content-Length of a POST
    in the one header object of the module and gives that same object to
    every request: a GET made after a POST still carries the Content-Length of
    the body of that POST. *)
Theorem GET_after_POST_carries_Content_Length {RT : Runtime} (w w1 w2 : world)
    (endpoint1 endpoint2 : jsstring) (data1 data2 callback1 callback2 : jsval) :
  sendRequest endpoint1 data1 (JString (js "POST")) callback1 w
  = (Normal (), w1) →
  is_function callback2 = true →
  sendRequest endpoint2 data2 callback2 JUndefined w1 = (Normal (), w2) →
  ∃ body r1 r2,
    requests w2 = requests w ++ [r1; r2]
    ∧ written r1 = Some body
    ∧ method r2 = JString (js "GET")
    ∧ written r2 = None
    ∧ headers r2 !! "Content-Length" = Some (JNumber (num (length body))).
Proof.
  intros Hpost Hfun Hget.
  destruct (sendRequest_returns _ _ _ _ _ _ Hpost) as (body & _ & _ & ->).
  destruct (sendRequest_returns _ _ _ _ _ _ Hget) as (query & _ & _ & ->).
  unfold sent, effective_method. rewrite Hfun. cbn [is_function].
  change (strict_eq_string (JString (js "POST")) "POST") with true.
  change (strict_eq_string (JString (js "GET")) "POST") with false.
  cbn [add_request set_header requests _HEADERS].
  eexists body, _, _. rewrite <- app_assoc. split; [reflexivity |].
  cbn [written method headers]. repeat split. by rewrite lookup_insert_eq.
Qed.

Lemma GET_after_POST_carries_Content_Length_witness :
  ∃ body r1 r2,
    requests (after (updateSecret (RT := sample_runtime) (JString (js "abc")) cb;;
                     getBalance (RT := sample_runtime) cb) ready)
    = requests ready ++ [r1; r2]
    ∧ written r1 = Some body
    ∧ method r2 = JString (js "GET")
    ∧ written r2 = None
    ∧ headers r2 !! "Content-Length" = Some (JNumber (num (length body))).
Proof.
  apply (GET_after_POST_carries_Content_Length (RT := sample_runtime)
           ready
           (after (updateSecret (RT := sample_runtime) (JString (js "abc")) cb)
              ready)
           _ _ENDPOINT.accountSettings _ENDPOINT.accountGetBalance
           (JObject [(js "newSecret", JString (js "abc"))]) JNull cb cb).
  - reflexivity.
  - reflexivity.
  - reflexivity.
Defined.

(** Before any POST the header object holds the two headers it was declared
    with, and a GET carries no Content-Length. *)
Lemma first_GET_has_no_Content_Length :
  (λ r, map_to_list (headers r))
    <$> requests (after (getBalance (RT := sample_runtime) cb) ready)
  = [[("Content-Type", JString (js "application/x-www-form-urlencoded"));
      ("accept", JString (js "application/json"))]].
Proof. vm_compute. reflexivity. Qed.

(** ** Initialisation *)

(** X1.  [initialize] with a missing or empty key or secret throws the
    key-and-secret message and changes nothing: the client stays as it was. *)
Theorem initialize_rejects_missing_credentials (key secret protocol debug : jsval)
    (w : world) :
  truthy key && truthy secret = false →
  initialize key secret protocol debug w
  = (Abrupt (Throw (JString _ERROR_MESSAGES.keyAndSecretRequired)), w).
Proof.
  intros Hks. unfold initialize.
  by destruct (truthy key), (truthy secret).
Qed.

Lemma initialize_rejects_missing_credentials_witness :
  initialize (JString (js "key")) (JString []) JUndefined JUndefined Nexmo
  = (Abrupt (Throw (JString _ERROR_MESSAGES.keyAndSecretRequired)), Nexmo).
Proof.
  apply initialize_rejects_missing_credentials. reflexivity.
Defined.

(** X3.  Initialising again replaces the configuration: a call of
    [initialize] with a key and a secret leaves the client as it would have
    on its own, whatever an earlier call of [initialize] had set. *)
Theorem reinitialize_replaces_configuration
    (key1 secret1 protocol1 debug1 key2 secret2 protocol2 debug2 : jsval)
    (w : world) :
  truthy key2 && truthy secret2 = true →
  initialize key2 secret2 protocol2 debug2
    (after (initialize key1 secret1 protocol1 debug1) w)
  = initialize key2 secret2 protocol2 debug2 w.
Proof.
  intros Hks. apply andb_prop in Hks as [Hk Hs].
  unfold after, initialize. rewrite Hk, Hs. cbn [negb orb].
  destruct (negb (truthy key1) || negb (truthy secret1)); reflexivity.
Qed.

Lemma reinitialize_replaces_configuration_witness :
  initialize (JString (js "key")) (JString (js "secret")) JUndefined JUndefined
    (after (initialize (JString (js "old")) (JString (js "older"))
              (JString (js "http")) (JBool true)) Nexmo)
  = initialize (JString (js "key")) (JString (js "secret")) JUndefined JUndefined
      Nexmo.
Proof.
  apply reinitialize_replaces_configuration. reflexivity.
Defined.

(** ** One call of [sendRequest] *)

(** X4.  [sendRequest] either hands exactly one request to the transport and
    registers its handlers around the continuation, or throws (the
    not-initialized message, or the URIError of an unencodable value) and
    leaves everything as it was.  In no case does it invoke a continuation
    itself. *)
Theorem sendRequest_one_request_or_nothing {RT : Runtime} (w : world)
    (endpoint : jsstring) (data method callback : jsval) :
  (∃ r,
     (sendRequest endpoint data method callback w).1 = Normal ()
     ∧ requests (after (sendRequest endpoint data method callback) w)
       = requests w ++ [r]
     ∧ exchanges (after (sendRequest endpoint data method callback) w)
       = exchanges w ++ [{| callback := continuation method callback;
                            buffer := []; responded := false |}]
     ∧ invocations (after (sendRequest endpoint data method callback) w)
       = invocations w)
  ∨ (((sendRequest endpoint data method callback w).1
      = Abrupt (Throw (JString _ERROR_MESSAGES.initializeRequired))
      ∨ (sendRequest endpoint data method callback w).1 = Abrupt URIError)
     ∧ after (sendRequest endpoint data method callback) w = w).
Proof.
  unfold after.
  destruct (_initialized w) eqn:Hi.
  - destruct (encoded_body w data) as [ds |] eqn:Hb.
    + left. rewrite (sendRequest_sent w endpoint data method callback ds) by done.
      unfold sent.
      destruct (strict_eq_string _ _); eexists; cbn; repeat split.
    + right. rewrite sendRequest_unencodable by done. split; [by right | done].
  - right. rewrite sendRequest_uninitialized by done. split; [by left | done].
Qed.

(** X5.  A request that is not a POST carries the URL-encoded credentials and
    parameters as the query string of its path, has nothing written to its
    body, and leaves the shared header object as it found it. *)
Theorem sendRequest_GET_query_string {RT : Runtime} (w : world)
    (endpoint : jsstring) (data method callback : jsval) (query : jsstring) :
  _initialized w = true →
  encoded_body w data = Some query →
  strict_eq_string (effective_method method) "POST" = false →
  ∃ r w',
    sendRequest endpoint data method callback w = (Normal (), w')
    ∧ requests w' = requests w ++ [r]
    ∧ path r = endpoint ++ js "?" ++ query
    ∧ written r = None
    ∧ headers r = _HEADERS w
    ∧ _HEADERS w' = _HEADERS w.
Proof.
  intros Hi Hb Hget.
  eexists _, _. split; [by apply sendRequest_sent |].
  unfold sent. rewrite Hget. cbn. repeat split.
Qed.

Lemma sendRequest_GET_query_string_witness :
  ∃ r w',
    sendRequest (RT := sample_runtime) _ENDPOINT.accountPricing
      (JObject [(js "country", JString (js "GB"))]) cb JUndefined ready
    = (Normal (), w')
    ∧ requests w' = requests ready ++ [r]
    ∧ path r = _ENDPOINT.accountPricing ++ js "?"
               ++ js "api_key=key&api_secret=secret&country=GB"
    ∧ written r = None
    ∧ headers r = _HEADERS ready
    ∧ _HEADERS w' = _HEADERS ready.
Proof.
  apply (sendRequest_GET_query_string (RT := sample_runtime)).
  - reflexivity.
  - vm_compute. reflexivity.
  - reflexivity.
Defined.

(** ** The response stream *)

Lemma emit_all_app {RT : Runtime} (i : nat) (evs1 evs2 : list event) (w : world) :
  emit_all i (evs1 ++ evs2) w
  = match emit_all i evs1 w with
    | (Normal _, w1) => emit_all i evs2 w1
    | (Abrupt e, w1) => (Abrupt e, w1)
    end.
Proof.
  revert w. induction evs1 as [| ev evs1 IH]; intros w; [reflexivity |].
  cbn [app emit_all]. unfold mbind, M_bind.
  destruct (emit i ev w) as [[[] | e] w1]; [apply IH | reflexivity].
Qed.

(** Chunks that arrive before 'response' find no handler. *)
Lemma emit_data_before_response {RT : Runtime} (i : nat) (x : exchange)
    (chunks : list jsstring) (w : world) :
  exchanges w !! i = Some x →
  responded x = false →
  emit_all i (EvData <$> chunks) w = (Normal (), w).
Proof.
  intros Hx Hr. induction chunks as [| c chunks IH]; [reflexivity |].
  cbn [fmap list_fmap emit_all]. unfold mbind, M_bind at 1.
  unfold emit at 1. unfold mbind, M_bind, read. rewrite Hx, Hr. exact IH.
Qed.

(** Chunks that arrive after 'response' are appended to the buffer, in the
    order of arrival. *)
Lemma emit_data_after_response {RT : Runtime} (i : nat)
    (chunks : list jsstring) :
  ∀ (w : world) (x : exchange),
    exchanges w !! i = Some x →
    responded x = true →
    ∃ w',
      emit_all i (EvData <$> chunks) w = (Normal (), w')
      ∧ exchanges w' !! i
        = Some {| callback := callback x; buffer := buffer x ++ concat chunks;
                  responded := true |}
      ∧ invocations w' = invocations w.
Proof.
  induction chunks as [| c chunks IH]; intros w x Hx Hr.
  - exists w. cbn [fmap list_fmap emit_all concat]. rewrite app_nil_r.
    repeat split. rewrite Hx. destruct x; cbn in *. by rewrite Hr.
  - assert (Hi : i < length (exchanges w)) by by eapply lookup_lt_Some.
    cbn [fmap list_fmap emit_all]. unfold mbind, M_bind at 1.
    unfold emit at 1. unfold mbind, M_bind, read, modify. rewrite Hx, Hr.
    destruct (IH (set_exchange i {| callback := callback x;
                                    buffer := buffer x ++ c;
                                    responded := true |} w)
                {| callback := callback x; buffer := buffer x ++ c;
                   responded := true |}) as (w' & Hrun & Hx' & Hinv).
    { cbn [set_exchange exchanges]. by rewrite list_lookup_insert_eq. }
    { reflexivity. }
    exists w'. split; [exact Hrun |]. split; [| exact Hinv].
    rewrite Hx'. cbn [callback buffer concat]. by rewrite <- app_assoc.
Qed.

(** X6.  The body is decoded as a whole.  On a request whose continuation is
    a function of the caller, chunks that arrive before 'response' are
    dropped, the chunks after it are joined in the order of arrival, and at
    'end' the continuation is invoked once, with [null] and the value decoded
    from the joined text. *)
Theorem body_is_decoded_as_a_whole {RT : Runtime} (w : world) (i : nat)
    (x : exchange) (id arity : nat) (early chunks : list jsstring)
    (payload : jsval) :
  exchanges w !! i = Some x →
  callback x = JFunction id arity →
  responded x = false →
  JSON_parse (buffer x ++ concat chunks) = inl payload →
  ∃ w',
    emit_all i ((EvData <$> early) ++ EvResponse :: (EvData <$> chunks) ++ [EvEnd]) w
    = (Normal (), w')
    ∧ invocations w' = invocations w ++ [(id, [JNull; payload])].
Proof.
  intros Hx Hcb Hr Hparse.
  assert (Hi : i < length (exchanges w)) by by eapply lookup_lt_Some.
  rewrite emit_all_app, (emit_data_before_response i x early w Hx Hr).
  cbn [emit_all]. unfold mbind, M_bind at 1.
  unfold emit at 1. unfold mbind, M_bind, read, modify. rewrite Hx.
  rewrite emit_all_app.
  destruct (emit_data_after_response i chunks
              (set_exchange i {| callback := callback x; buffer := buffer x;
                                 responded := true |} w)
              {| callback := callback x; buffer := buffer x;
                 responded := true |}) as (w1 & Hrun & Hx1 & Hinv).
  { cbn [set_exchange exchanges]. by rewrite list_lookup_insert_eq. }
  { reflexivity. }
  rewrite Hrun. cbn [emit_all callback buffer] in Hx1 |- *.
  unfold mbind, M_bind, emit, read. unfold mbind, M_bind. rewrite Hx1.
  cbn [responded callback buffer]. rewrite Hcb, Hparse. cbn [truthy].
  rewrite call_function. eexists. split; [reflexivity |].
  cbn [add_invocation invocations]. by rewrite Hinv.
Qed.

Lemma body_is_decoded_as_a_whole_witness :
  ∃ w',
    emit_all (RT := sample_runtime) 0
      ((EvData <$> [js "lost"]) ++ EvResponse
         :: (EvData <$> [js "{" ++ quoted "value"; js ":3}"]) ++ [EvEnd])
      (after (getBalance (RT := sample_runtime) cb) ready)
    = (Normal (), w')
    ∧ invocations w'
      = invocations (after (getBalance (RT := sample_runtime) cb) ready)
        ++ [(1, [JNull; payload_balance])].
Proof.
  apply (body_is_decoded_as_a_whole (RT := sample_runtime)
           (after (getBalance (RT := sample_runtime) cb) ready) 0
           {| callback := cb; buffer := []; responded := false |} 1 2).
  - reflexivity.
  - reflexivity.
  - reflexivity.
  - vm_compute. reflexivity.
Defined.

(** ** The send guard on the other paths *)

(** X7.  A decoded payload whose top-level status can be read (any payload
    but [null]) and is missing or falsy passes the guard of a send operation
    untouched: the caller's continuation is invoked once, with [null] and the
    payload, whatever else the payload holds. *)
Theorem payload_without_status_is_a_success {RT : Runtime} (w : world) (i : nat)
    (x : exchange) (id arity : nat) (apiResponse status : jsval) :
  exchanges w !! i = Some x →
  callback x = JSendGuard (JFunction id arity) →
  responded x = true →
  JSON_parse (buffer x) = inl apiResponse →
  get apiResponse "status" = Normal status →
  truthy status = false →
  emit i EvEnd w = (Normal (), add_invocation id [JNull; apiResponse] w).
Proof.
  intros Hx Hcb Hr Hparse Hs Hst.
  rewrite (emit_end_decoded w i x apiResponse) by (by rewrite ?Hcb).
  rewrite Hcb. enter_guard.
  rewrite Hs. cbn [fmap completion_fmap]. by rewrite Hst.
Qed.

Lemma payload_without_status_is_a_success_witness :
  emit (RT := sample_runtime) 0 EvEnd (text_message_answered body_balance)
  = (Normal (),
     add_invocation 1 [JNull; payload_balance]
       (text_message_answered body_balance)).
Proof.
  apply (payload_without_status_is_a_success (RT := sample_runtime) _ 0
           {| callback := JSendGuard cb; buffer := body_balance;
              responded := true |} 1 2 payload_balance JUndefined).
  - reflexivity.
  - reflexivity.
  - reflexivity.
  - vm_compute. reflexivity.
  - reflexivity.
  - reflexivity.
Defined.

(** X8.  A transport failure that carries a truthy error passes the guard of
    a send operation.  On 'error', whenever it comes, the caller's
    continuation is invoked once with that error and no result; so it is on
    'close' once 'response' has been handled, while a 'close' before
    'response' finds no handler and does nothing. *)
Theorem transport_error_passes_the_guard {RT : Runtime} (w : world) (i : nat)
    (x : exchange) (id arity : nat) (e : jsval) :
  exchanges w !! i = Some x →
  callback x = JSendGuard (JFunction id arity) →
  truthy e = true →
  emit i (EvError e) w = (Normal (), add_invocation id [e; JUndefined] w)
  ∧ emit i (EvClose e) w
    = (Normal (),
       if responded x then add_invocation id [e; JUndefined] w else w).
Proof.
  intros Hx Hcb He.
  unfold emit, mbind, M_bind, read. rewrite Hx, Hcb.
  cbn [call arg lookup list_lookup default from_option].
  unfold send_guard, js_and, mbind, M_bind, lift.
  cbn [mret completion_ret completion_bind Datatypes.id]. rewrite He.
  by destruct (responded x).
Qed.

Lemma transport_error_passes_the_guard_witness :
  emit (RT := sample_runtime) 0 (EvError (JError PlainError (js "socket hang up")))
    (after (sendTextMessage (RT := sample_runtime)
              (JString (js "Sender")) (JString (js "447700900000"))
              (JString (js "Hello")) cb) ready)
  = (Normal (),
     add_invocation 1 [JError PlainError (js "socket hang up"); JUndefined]
       (after (sendTextMessage (RT := sample_runtime)
                 (JString (js "Sender")) (JString (js "447700900000"))
                 (JString (js "Hello")) cb) ready))
  ∧ emit (RT := sample_runtime) 0
      (EvClose (JError PlainError (js "socket hang up")))
      (after (sendTextMessage (RT := sample_runtime)
                (JString (js "Sender")) (JString (js "447700900000"))
                (JString (js "Hello")) cb) ready)
    = (Normal (),
       if responded {| callback := JSendGuard cb; buffer := [];
                       responded := false |}
       then add_invocation 1
              [JError PlainError (js "socket hang up"); JUndefined]
              (after (sendTextMessage (RT := sample_runtime)
                        (JString (js "Sender")) (JString (js "447700900000"))
                        (JString (js "Hello")) cb) ready)
       else after (sendTextMessage (RT := sample_runtime)
                     (JString (js "Sender")) (JString (js "447700900000"))
                     (JString (js "Hello")) cb) ready).
Proof.
  apply (transport_error_passes_the_guard (RT := sample_runtime) _ 0
           {| callback := JSendGuard cb; buffer := []; responded := false |} 1 2).
  - reflexivity.
  - reflexivity.
  - reflexivity.
Defined.

(** X9.  A body that is not JSON passes the guard of a send operation as
    well: the caller's continuation is invoked once with the parse error and
    no result. *)
Theorem decode_failure_passes_the_guard {RT : Runtime} (w : world) (i : nat)
    (x : exchange) (id arity : nat) (parserError : jsstring) :
  exchanges w !! i = Some x →
  callback x = JSendGuard (JFunction id arity) →
  responded x = true →
  JSON_parse (buffer x) = inr parserError →
  emit i EvEnd w
  = (Normal (),
     add_invocation id [JError SyntaxError parserError; JUndefined] w).
Proof.
  intros Hx Hcb Hr Hparse.
  unfold emit, mbind, M_bind, read. by rewrite Hx, Hr, Hcb, Hparse.
Qed.

Lemma decode_failure_passes_the_guard_witness :
  emit (RT := sample_runtime) 0 EvEnd (text_message_answered (js "<html>"))
  = (Normal (),
     add_invocation 1 [JError SyntaxError (js "Unexpected token"); JUndefined]
       (text_message_answered (js "<html>"))).
Proof.
  apply (decode_failure_passes_the_guard (RT := sample_runtime) _ 0
           {| callback := JSendGuard cb; buffer := js "<html>";
              responded := true |} 1 2).
  - reflexivity.
  - reflexivity.
  - reflexivity.
  - reflexivity.
Defined.

(** X10.  A send operation called without a continuation has nobody to
    report an application error to: when the decoded payload has a truthy
    status and a truthy error-text, the guard throws the Error made from that
    text out of the 'end' handler. *)
Theorem application_error_without_continuation_is_thrown {RT : Runtime}
    (w : world) (i : nat) (x : exchange)
    (callback' apiResponse status text : jsval) :
  exchanges w !! i = Some x →
  callback x = JSendGuard callback' →
  truthy callback' = false →
  responded x = true →
  JSON_parse (buffer x) = inl apiResponse →
  get apiResponse "status" = Normal status →
  truthy status = true →
  get apiResponse "error-text" = Normal text →
  truthy text = true →
  emit i EvEnd w = (Abrupt (Throw (new_Error text)), w).
Proof.
  intros Hx Hcb Hk Hr Hparse Hs Hst He Het.
  rewrite (emit_end_decoded w i x apiResponse) by (by rewrite ?Hcb).
  rewrite Hcb. enter_guard.
  rewrite Hs. cbn [fmap completion_fmap]. rewrite Hst, He.
  cbn [fmap completion_fmap]. by rewrite Het, Hk.
Qed.

Lemma application_error_without_continuation_is_thrown_witness :
  emit (RT := sample_runtime) 0 EvEnd
    (after (sendTextMessage (RT := sample_runtime)
              (JString (js "Sender")) (JString (js "447700900000"))
              (JString (js "Hello")) JUndefined;;
            emit_all (RT := sample_runtime) 0
              [EvResponse; EvData body_bad_request]) ready)
  = (Abrupt (Throw (new_Error (RT := sample_runtime)
                      (JString (js "bad request")))),
     after (sendTextMessage (RT := sample_runtime)
              (JString (js "Sender")) (JString (js "447700900000"))
              (JString (js "Hello")) JUndefined;;
            emit_all (RT := sample_runtime) 0
              [EvResponse; EvData body_bad_request]) ready).
Proof.
  apply (application_error_without_continuation_is_thrown
           (RT := sample_runtime) _ 0
           {| callback := JSendGuard JUndefined; buffer := body_bad_request;
              responded := true |} JUndefined payload_bad_request
           (JString (js "1")) (JString (js "bad request"))).
  - reflexivity.
  - reflexivity.
  - reflexivity.
  - reflexivity.
  - vm_compute. reflexivity.
  - reflexivity.
  - reflexivity.
  - reflexivity.
  - reflexivity.
Defined.

(** X11.  The guard of a send operation reads the response before it looks
    at anything else, so a failure event that carries no error makes it read
    a property of [undefined].  On such an 'error', whenever it comes, and on
    such a 'close' once 'response' has been handled, the handler throws a
    TypeError and the caller's continuation is not invoked; a 'close' before
    'response' finds no handler and does nothing. *)
Theorem close_without_error_faults_in_the_guard {RT : Runtime} (w : world)
    (i : nat) (x : exchange) (callback' e : jsval) :
  exchanges w !! i = Some x →
  callback x = JSendGuard callback' →
  truthy e = false →
  emit i (EvError e) w = (Abrupt TypeError, w)
  ∧ emit i (EvClose e) w
    = (if responded x then Abrupt TypeError else Normal (), w).
Proof.
  intros Hx Hcb He.
  unfold emit, mbind, M_bind, read. rewrite Hx, Hcb.
  cbn [call arg lookup list_lookup default from_option].
  unfold send_guard, js_and, mbind, M_bind, lift.
  cbn [mret completion_ret completion_bind Datatypes.id]. rewrite He.
  by destruct (responded x).
Qed.

Lemma close_without_error_faults_in_the_guard_witness :
  emit (RT := sample_runtime) 0 (EvError JUndefined) (text_message_answered [])
  = (Abrupt TypeError, text_message_answered [])
  ∧ emit (RT := sample_runtime) 0 (EvClose JUndefined) (text_message_answered [])
    = (if responded {| callback := JSendGuard cb; buffer := [];
                       responded := true |}
       then Abrupt TypeError else Normal (),
       text_message_answered []).
Proof.
  apply (close_without_error_faults_in_the_guard (RT := sample_runtime) _ 0
           {| callback := JSendGuard cb; buffer := []; responded := true |} cb).
  - reflexivity.
  - reflexivity.
  - reflexivity.
Defined.

(** ** Argument validation *)

Lemma num_lt_nat (a b : nat) : num_lt (num a) (num b) = bool_decide (a < b).
Proof.
  unfold num_lt, num, scaled. rewrite Z.min_id, Z.sub_diag, !Z.mul_1_r.
  case_bool_decide; [apply Z.ltb_lt | apply Z.ltb_ge]; lia.
Qed.

Lemma num_eq_nat (a b : nat) : num_eq (num a) (num b) = bool_decide (a = b).
Proof.
  unfold num_eq, num, scaled. rewrite Z.min_id, Z.sub_diag, !Z.mul_1_r.
  case_bool_decide; [apply Z.eqb_eq | apply Z.eqb_neq]; lia.
Qed.

Lemma new_Error_string {RT : Runtime} (s : jsstring) :
  new_Error (JString s) = JError PlainError s.
Proof. reflexivity. Qed.

(** On a list of [n] ids the copy loop, entered at [idx], copies the ids from
    [idx] on, as long as the fuel reaches the end of the list. *)
Lemma copy_ids_array {RT : Runtime} (ids : list jsval) :
  ∀ fuel idx,
    length ids ≤ fuel + idx →
    copy_ids fuel idx (JArray ids) (JNumber (num (length ids)))
    = Normal (drop idx ids).
Proof.
  induction fuel as [| fuel IH]; intros idx Hlen.
  - cbn [copy_ids]. by rewrite drop_ge by lia.
  - cbn [copy_ids ToNumber]. rewrite num_lt_nat.
    case_bool_decide as Hidx.
    + destruct (lookup_lt_is_Some_2 ids idx Hidx) as [v Hv].
      cbn [get_index]. rewrite Hv. cbn.
      rewrite IH by lia. cbn. by rewrite (drop_S ids v idx Hv).
    + by rewrite drop_ge by lia.
Qed.

(** X12.  [searchMessageByIds] accepts between one and ten ids.  Given an
    empty list the continuation is invoked with the invalid-message-id error,
    given more than ten with the too-many error; in both cases nothing else
    happens, initialised or not. *)
Theorem searchMessageByIds_bounds {RT : Runtime} (ids : list jsval)
    (id arity : nat) (w : world) :
  10 < length ids →
  searchMessageByIds (JArray ids) (JFunction id arity) w
  = (Normal (),
     add_invocation id
       [JError PlainError _ERROR_MESSAGES.tooManyMessageId; JUndefined] w)
  ∧ searchMessageByIds (JArray []) (JFunction id arity) w
    = (Normal (),
       add_invocation id
         [JError PlainError _ERROR_MESSAGES.invalidMessageId; JUndefined] w).
Proof.
  intros Hlen. split; [| reflexivity].
  unfold searchMessageByIds, js_or, mbind, M_bind, lift.
  cbn [truthy negb mret completion_ret completion_bind get].
  rewrite bool_decide_eq_true_2 by done.
  cbn [strict_eq_num]. rewrite num_eq_nat, bool_decide_eq_false_2 by lia.
  unfold gt. cbn [ToNumber]. rewrite num_lt_nat, bool_decide_eq_true_2 by done.
  reflexivity.
Qed.

Lemma searchMessageByIds_bounds_witness :
  searchMessageByIds (RT := sample_runtime)
    (JArray (replicate 11 (JString (js "0A000000")))) cb ready
  = (Normal (),
     add_invocation 1
       [JError PlainError _ERROR_MESSAGES.tooManyMessageId; JUndefined] ready)
  ∧ searchMessageByIds (RT := sample_runtime) (JArray []) cb ready
    = (Normal (),
       add_invocation 1
         [JError PlainError _ERROR_MESSAGES.invalidMessageId; JUndefined] ready).
Proof.
  apply (searchMessageByIds_bounds (RT := sample_runtime)).
  vm_compute. lia.
Defined.

(** X13.  Given between one and ten ids, [searchMessageByIds] sends all of
    them, in their order, as the parameter [ids] of one request to the
    messages search. *)
Theorem searchMessageByIds_sends_every_id {RT : Runtime} (ids : list jsval)
    (callback : jsval) (w : world) :
  0 < length ids ≤ 10 →
  searchMessageByIds (JArray ids) callback w
  = sendRequest _ENDPOINT.searchMessages (JObject [(js "ids", JArray ids)])
      callback JUndefined w.
Proof.
  intros [Hpos Hmax].
  unfold searchMessageByIds, js_or, mbind, M_bind, lift.
  cbn [truthy negb mret completion_ret completion_bind get].
  rewrite bool_decide_eq_true_2 by done.
  cbn [strict_eq_num]. rewrite num_eq_nat, bool_decide_eq_false_2 by lia.
  unfold gt. cbn [ToNumber]. rewrite num_lt_nat, bool_decide_eq_false_2 by lia.
  by rewrite copy_ids_array by lia.
Qed.

Lemma searchMessageByIds_sends_every_id_witness :
  searchMessageByIds (RT := sample_runtime)
    (JArray [JString (js "0A000000"); JString (js "0B000000")]) cb ready
  = sendRequest (RT := sample_runtime) _ENDPOINT.searchMessages
      (JObject [(js "ids",
                 JArray [JString (js "0A000000"); JString (js "0B000000")])])
      cb JUndefined ready.
Proof.
  apply (searchMessageByIds_sends_every_id (RT := sample_runtime)).
  vm_compute. lia.
Defined.

Lemma bad_country_code_string (s : jsstring) :
  bad_country_code (JString s) = Normal (negb (bool_decide (length s = 2))).
Proof.
  unfold bad_country_code, js_or. destruct s as [| c s]; [reflexivity |].
  cbn [truthy negb mbind completion_bind mret completion_ret get].
  rewrite bool_decide_eq_false_2, bool_decide_eq_true_2 by done.
  cbn [negb strict_eq_num]. by rewrite num_eq_nat.
Qed.

Lemma bad_msisdn_string {RT : Runtime} (s : jsstring) :
  bad_msisdn (JString s) = Normal (bool_decide (length s < 10)).
Proof.
  unfold bad_msisdn, js_or. destruct s as [| c s].
  - cbn. by rewrite bool_decide_eq_true_2 by lia.
  - cbn [truthy negb mbind completion_bind mret completion_ret get].
    rewrite bool_decide_eq_false_2, bool_decide_eq_true_2 by done.
    cbn [negb]. unfold lt. cbn [ToNumber]. by rewrite num_lt_nat.
Qed.

(** X14.  A country code is a string of exactly two characters: any other
    string makes [getPricing], [searchNumbers], [buyNumber] and
    [cancelNumber] invoke the continuation with the country-code error, and
    do nothing else. *)
Theorem country_code_has_two_characters {RT : Runtime} (code : jsstring)
    (pattern index size msisdn : jsval) (id arity : nat) (w : world) :
  length code ≠ 2 →
  let rejected :=
    (Normal (),
     add_invocation id
       [JError PlainError _ERROR_MESSAGES.invalidCountryCode; JUndefined] w) in
  getPricing (JString code) (JFunction id arity) w = rejected
  ∧ searchNumbers (JString code) pattern index size (JFunction id arity) w
    = rejected
  ∧ buyNumber (JString code) msisdn (JFunction id arity) w = rejected
  ∧ cancelNumber (JString code) msisdn (JFunction id arity) w = rejected.
Proof.
  intros Hlen rejected.
  unfold getPricing, searchNumbers, buyNumber, cancelNumber, mbind, M_bind, lift.
  rewrite bad_country_code_string, bool_decide_eq_false_2 by done.
  repeat split.
Qed.

Lemma country_code_has_two_characters_witness :
  getPricing (RT := sample_runtime) (JString (js "USA")) cb ready
  = (Normal (),
     add_invocation 1
       [JError PlainError _ERROR_MESSAGES.invalidCountryCode; JUndefined] ready)
  ∧ searchNumbers (RT := sample_runtime) (JString (js "USA")) JUndefined
      JUndefined JUndefined cb ready
    = (Normal (),
       add_invocation 1
         [JError PlainError _ERROR_MESSAGES.invalidCountryCode; JUndefined] ready)
  ∧ buyNumber (RT := sample_runtime) (JString (js "USA"))
      (JString (js "447700900000")) cb ready
    = (Normal (),
       add_invocation 1
         [JError PlainError _ERROR_MESSAGES.invalidCountryCode; JUndefined] ready)
  ∧ cancelNumber (RT := sample_runtime) (JString (js "USA"))
      (JString (js "447700900000")) cb ready
    = (Normal (),
       add_invocation 1
         [JError PlainError _ERROR_MESSAGES.invalidCountryCode; JUndefined] ready).
Proof.
  apply (country_code_has_two_characters (RT := sample_runtime) (js "USA")).
  vm_compute. lia.
Defined.

(** X15.  With a two-character country code, [buyNumber] and [cancelNumber]
    ask for a number of at least ten characters: a shorter string makes them
    invoke the continuation with the MSISDN error, and do nothing else. *)
Theorem msisdn_has_ten_characters {RT : Runtime} (code msisdn : jsstring)
    (id arity : nat) (w : world) :
  length code = 2 →
  length msisdn < 10 →
  buyNumber (JString code) (JString msisdn) (JFunction id arity) w
  = (Normal (),
     add_invocation id
       [JError PlainError _ERROR_MESSAGES.invalidMsisdn; JUndefined] w)
  ∧ cancelNumber (JString code) (JString msisdn) (JFunction id arity) w
    = (Normal (),
       add_invocation id
         [JError PlainError _ERROR_MESSAGES.invalidMsisdn; JUndefined] w).
Proof.
  intros Hcode Hlen.
  unfold buyNumber, cancelNumber, mbind, M_bind, lift.
  rewrite bad_country_code_string, bool_decide_eq_true_2 by done.
  cbn [negb]. rewrite bad_msisdn_string, bool_decide_eq_true_2 by done.
  split; reflexivity.
Qed.

Lemma msisdn_has_ten_characters_witness :
  buyNumber (RT := sample_runtime) (JString (js "GB")) (JString (js "447700"))
    cb ready
  = (Normal (),
     add_invocation 1
       [JError PlainError _ERROR_MESSAGES.invalidMsisdn; JUndefined] ready)
  ∧ cancelNumber (RT := sample_runtime) (JString (js "GB"))
      (JString (js "447700")) cb ready
    = (Normal (),
       add_invocation 1
         [JError PlainError _ERROR_MESSAGES.invalidMsisdn; JUndefined] ready).
Proof.
  apply (msisdn_has_ten_characters (RT := sample_runtime) (js "GB") (js "447700")).
  - reflexivity.
  - vm_compute. lia.
Defined.

Lemma sendMessage_rejects {RT : Runtime} (data : jsval) (endpoint : jsstring)
    (sender recipient : jsval) (id arity : nat) (w : world) :
  get data "from" = Normal sender →
  get data "to" = Normal recipient →
  truthy sender && truthy recipient = false →
  sendMessage data endpoint (JFunction id arity) w
  = (Normal (),
     add_invocation id
       [JError PlainError (if truthy sender
                           then _ERROR_MESSAGES.invalidRecipient
                           else _ERROR_MESSAGES.invalidSender);
        JUndefined] w).
Proof.
  intros Hfrom Hto Hsr.
  unfold sendMessage, mbind, M_bind, lift. rewrite Hfrom.
  destruct (truthy sender); [| reflexivity].
  cbn [negb]. rewrite Hto.
  destruct (truthy recipient); [done | reflexivity].
Qed.

(** X16.  The three message operations check the content first, then the
    sender, then the recipient.  With content, a missing sender makes them
    invoke the continuation with the from-address error; with content and a
    sender, a missing recipient gives the to-address error.  Nothing else
    happens, initialised or not. *)
Theorem message_needs_sender_and_recipient {RT : Runtime}
    (sender recipient content udh : jsval) (id arity : nat) (w : world) :
  truthy content = true →
  truthy udh = true →
  truthy sender && truthy recipient = false →
  let rejected :=
    (Normal (),
     add_invocation id
       [JError PlainError (if truthy sender
                           then _ERROR_MESSAGES.invalidRecipient
                           else _ERROR_MESSAGES.invalidSender);
        JUndefined] w) in
  sendTextMessage sender recipient content (JFunction id arity) w = rejected
  ∧ sendBinaryMessage sender recipient content udh (JFunction id arity) w
    = rejected
  ∧ sendTTSMessage sender recipient content (JFunction id arity) w = rejected.
Proof.
  intros Hc Hu Hsr rejected.
  unfold sendTextMessage, sendBinaryMessage, sendTTSMessage. rewrite Hc, Hu.
  cbn [negb].
  repeat split; by apply (sendMessage_rejects _ _ sender recipient).
Qed.

Lemma message_needs_sender_and_recipient_witness :
  sendTextMessage (RT := sample_runtime) (JString (js "Sender")) (JString [])
    (JString (js "Hello")) cb Nexmo
  = (Normal (),
     add_invocation 1
       [JError PlainError _ERROR_MESSAGES.invalidRecipient; JUndefined] Nexmo)
  ∧ sendBinaryMessage (RT := sample_runtime) (JString (js "Sender")) (JString [])
      (JString (js "Hello")) (JString (js "0605")) cb Nexmo
    = (Normal (),
       add_invocation 1
         [JError PlainError _ERROR_MESSAGES.invalidRecipient; JUndefined] Nexmo)
  ∧ sendTTSMessage (RT := sample_runtime) (JString (js "Sender")) (JString [])
      (JString (js "Hello")) cb Nexmo
    = (Normal (),
       add_invocation 1
         [JError PlainError _ERROR_MESSAGES.invalidRecipient; JUndefined] Nexmo).
Proof.
  apply (message_needs_sender_and_recipient (RT := sample_runtime)
           (JString (js "Sender")) (JString []) (JString (js "Hello"))
           (JString (js "0605")) 1 2 Nexmo).
  - reflexivity.
  - reflexivity.
  - reflexivity.
Defined.

(** X17.  The operations with optional arguments validate before they look
    for a continuation among those arguments.  A call that leaves the
    optional arguments out, with the continuation [k] in the place of the
    first of them, and whose first argument is rejected does not reach [k]:
    the declared last argument is missing, and the validation error is
    thrown. *)
Theorem rejected_short_call_throws {RT : Runtime} (code : jsstring)
    (missing sender recipient url k : jsval) (w : world) :
  length code ≠ 2 →
  truthy missing = false →
  searchNumbers (JString code) k JUndefined JUndefined JUndefined w
  = (Abrupt (Throw (JError PlainError _ERROR_MESSAGES.invalidCountryCode)), w)
  ∧ searchRejections missing k JUndefined w
    = (Abrupt (Throw (JError PlainError _ERROR_MESSAGES.invalidDate)), w)
  ∧ sendWapPushMessage sender recipient missing url k JUndefined w
    = (Abrupt (Throw (JError PlainError _ERROR_MESSAGES.invalidTitle)), w).
Proof.
  intros Hlen Hmissing.
  unfold searchNumbers, searchRejections, sendWapPushMessage, mbind, M_bind, lift.
  rewrite bad_country_code_string, bool_decide_eq_false_2 by done.
  rewrite Hmissing. repeat split.
Qed.

Lemma rejected_short_call_throws_witness :
  searchNumbers (RT := sample_runtime) (JString (js "U")) cb JUndefined
    JUndefined JUndefined ready
  = (Abrupt (Throw (JError PlainError _ERROR_MESSAGES.invalidCountryCode)), ready)
  ∧ searchRejections (RT := sample_runtime) (JString []) cb JUndefined ready
    = (Abrupt (Throw (JError PlainError _ERROR_MESSAGES.invalidDate)), ready)
  ∧ sendWapPushMessage (RT := sample_runtime) (JString (js "Sender"))
      (JString (js "447700900000")) (JString [])
      (JString (js "http://example.com")) cb JUndefined ready
    = (Abrupt (Throw (JError PlainError _ERROR_MESSAGES.invalidTitle)), ready).
Proof.
  apply (rejected_short_call_throws (RT := sample_runtime) (js "U") (JString [])).
  - vm_compute. lia.
  - reflexivity.
Defined.

(** X18.  Optional arguments may be left out.  With a country code that is
    accepted, [searchNumbers] called with a continuation in the place of the
    pattern sends the country alone and ignores what follows; with a date,
    [searchRejections] called with a continuation in the place of the
    recipient sends the date alone. *)
Theorem optional_arguments_may_be_left_out {RT : Runtime}
    (countryCode date k index size callback : jsval) (w : world) :
  is_function k = true →
  bad_country_code countryCode = Normal false →
  truthy date = true →
  searchNumbers countryCode k index size callback w
  = sendRequest _ENDPOINT.numberSearch (JObject [(js "country", countryCode)])
      k JUndefined w
  ∧ searchRejections date k callback w
    = sendRequest _ENDPOINT.searchRejections (JObject [(js "date", date)])
        k JUndefined w.
Proof.
  intros Hk Hcode Hdate.
  unfold searchNumbers, searchRejections, mbind, M_bind, lift.
  rewrite Hcode, Hdate, Hk. split; reflexivity.
Qed.

Lemma optional_arguments_may_be_left_out_witness :
  searchNumbers (RT := sample_runtime) (JString (js "GB")) cb JUndefined
    JUndefined JUndefined ready
  = sendRequest (RT := sample_runtime) _ENDPOINT.numberSearch
      (JObject [(js "country", JString (js "GB"))]) cb JUndefined ready
  ∧ searchRejections (RT := sample_runtime) (JString (js "2014-01-31")) cb
      JUndefined ready
    = sendRequest (RT := sample_runtime) _ENDPOINT.searchRejections
        (JObject [(js "date", JString (js "2014-01-31"))]) cb JUndefined ready.
Proof.
  apply (optional_arguments_may_be_left_out (RT := sample_runtime)).
  - reflexivity.
  - reflexivity.
  - reflexivity.
Defined.

(** X19.  A WAP push without a validity lives for 172800000 milliseconds:
    with a title and a URL, calling [sendWapPushMessage] with the
    continuation in the place of the validity is calling it with that
    validity and the continuation in its own place. *)
Theorem wap_push_default_validity {RT : Runtime}
    (sender recipient title url k callback : jsval) (w : world) :
  is_function k = true →
  truthy title = true →
  truthy url = true →
  sendWapPushMessage sender recipient title url k callback w
  = sendWapPushMessage sender recipient title url
      (JNumber (Finite 172800000 0)) k w.
Proof.
  intros Hk Ht Hu. unfold sendWapPushMessage. by rewrite Ht, Hu, Hk.
Qed.

Lemma wap_push_default_validity_witness :
  sendWapPushMessage (RT := sample_runtime) (JString (js "Sender"))
    (JString (js "447700900000")) (JString (js "Title"))
    (JString (js "http://example.com")) cb JUndefined ready
  = sendWapPushMessage (RT := sample_runtime) (JString (js "Sender"))
      (JString (js "447700900000")) (JString (js "Title"))
      (JString (js "http://example.com")) (JNumber (Finite 172800000 0)) cb ready.
Proof.
  apply (wap_push_default_validity (RT := sample_runtime)).
  - reflexivity.
  - reflexivity.
  - reflexivity.
Defined.

(** ** What a computation keeps *)

Lemma preserves_ret (P : world → Prop) {A} (a : A) : preserves P (mret a).
Proof. by intros w HP. Qed.

Lemma preserves_throw (P : world → Prop) {A} (e : thrown) :
  preserves P (throw (A := A) e).
Proof. by intros w HP. Qed.

Lemma preserves_lift (P : world → Prop) {A} (c : completion A) :
  preserves P (lift c).
Proof. by intros w HP. Qed.

Lemma preserves_bind (P : world → Prop) {A B} (m : M A) (k : A → M B) :
  preserves P m → (∀ a, preserves P (k a)) → preserves P (m ≫= k).
Proof.
  intros Hm Hk w HP. unfold mbind, M_bind.
  specialize (Hm w HP). destruct (m w) as [[a | e] w1]; [| done].
  by apply Hk.
Qed.

Lemma preserves_add_invocation (P : world → Prop) (id : nat)
    (args : list jsval) :
  invocation_blind P → preserves P (modify (add_invocation id args)).
Proof. intros Hblind w HP. by apply Hblind. Qed.

Ltac preserves_step :=
  first
    [ apply preserves_ret | apply preserves_throw | apply preserves_lift
    | apply preserves_add_invocation; assumption
    | apply preserves_bind; [| intros ?]
    | match goal with
      | |- preserves _ (if ?b then _ else _) => destruct b
      | |- preserves _ (let '(_, _) := (if ?b then _ else _) in _) =>
          destruct b
      | |- preserves _ (match ?c with inl _ => _ | inr _ => _ end) =>
          destruct c
      end ].

Lemma preserves_send_guard {RT : Runtime} (P : world → Prop)
    (invoke : list jsval → M unit) (callback err apiResponse : jsval) :
  (∀ args, preserves P (invoke args)) →
  preserves P (send_guard invoke callback err apiResponse).
Proof.
  intros Hinvoke. unfold send_guard, sendErrorResponse_via.
  repeat (preserves_step || apply Hinvoke).
Qed.

Lemma preserves_call {RT : Runtime} (P : world → Prop) (f : jsval) :
  invocation_blind P → ∀ args, preserves P (call f args).
Proof.
  intros Hblind. induction f; intros args; cbn [call];
    try apply preserves_throw; try by apply preserves_add_invocation.
  by apply preserves_send_guard.
Qed.

Lemma preserves_sendErrorResponse {RT : Runtime} (P : world → Prop)
    (callback err returnData : jsval) :
  invocation_blind P →
  preserves P (sendErrorResponse callback err returnData).
Proof.
  intros Hblind. unfold sendErrorResponse, sendErrorResponse_via.
  repeat (preserves_step || (by apply preserves_call)).
Qed.

(** The handlers of request [i] keep what neither the invocations nor the
    handler state of request [i] can change. *)
Lemma preserves_emit {RT : Runtime} (P : world → Prop) (i : nat) (ev : event) :
  invocation_blind P →
  (∀ w x, P w → P (set_exchange i x w)) →
  preserves P (emit i ev).
Proof.
  intros Hblind Hset. unfold emit.
  apply preserves_bind; [by intros w HP |]. intros [x |]; [| apply preserves_ret].
  destruct ev; repeat (preserves_step || (by apply preserves_call));
    intros w HP; by apply Hset.
Qed.

(** ** Requests in flight are independent *)

(** X20.  A transport event on one request touches nothing but that request:
    the settings of the client, the requests made and the handler state of
    every other request stay as they were. *)
Theorem event_leaves_other_requests_alone {RT : Runtime} (i j : nat)
    (ev : event) (w : world) :
  i ≠ j →
  settings (after (emit i ev) w) = settings w
  ∧ requests (after (emit i ev) w) = requests w
  ∧ exchanges (after (emit i ev) w) !! j = exchanges w !! j.
Proof.
  intros Hij.
  apply (preserves_emit
           (λ w', settings w' = settings w ∧ requests w' = requests w
                  ∧ exchanges w' !! j = exchanges w !! j) i ev).
  - by intros w' id args HP.
  - intros w' x (Hs & Hr & Hx). repeat split; try done.
    cbn [set_exchange exchanges]. by rewrite list_lookup_insert_ne.
  - done.
Qed.

Lemma event_leaves_other_requests_alone_witness :
  settings (after (emit (RT := sample_runtime) 0 EvResponse)
              (after (getBalance (RT := sample_runtime) cb;;
                      getNumbers (RT := sample_runtime) cb) ready))
  = settings (after (getBalance (RT := sample_runtime) cb;;
                     getNumbers (RT := sample_runtime) cb) ready)
  ∧ requests (after (emit (RT := sample_runtime) 0 EvResponse)
                (after (getBalance (RT := sample_runtime) cb;;
                        getNumbers (RT := sample_runtime) cb) ready))
    = requests (after (getBalance (RT := sample_runtime) cb;;
                       getNumbers (RT := sample_runtime) cb) ready)
  ∧ exchanges (after (emit (RT := sample_runtime) 0 EvResponse)
                 (after (getBalance (RT := sample_runtime) cb;;
                         getNumbers (RT := sample_runtime) cb) ready)) !! 1
    = exchanges (after (getBalance (RT := sample_runtime) cb;;
                        getNumbers (RT := sample_runtime) cb) ready) !! 1.
Proof.
  apply (event_leaves_other_requests_alone (RT := sample_runtime) 0 1).
  lia.
Defined.

(** ** The headers of every request *)

Lemma standard_headers_insert (h : gmap string jsval) (v : jsval) :
  standard_headers h → standard_headers (<["Content-Length" := v]> h).
Proof.
  intros [Hct Hacc]. unfold standard_headers.
  by rewrite !lookup_insert_ne by done.
Qed.

Lemma well_headed_blind : invocation_blind well_headed.
Proof. by intros w id args HP. Qed.

Lemma well_headed_sent (endpoint dataString : jsstring) (method callback : jsval)
    (w : world) :
  well_headed w → well_headed (sent endpoint dataString method callback w).
Proof.
  intros [Hh Hr]. unfold sent, well_headed.
  destruct (strict_eq_string _ _);
    cbn [add_request set_header _HEADERS requests];
    (split; [| apply Forall_app_2; [done | constructor; [| constructor]]]);
    cbn [headers]; try done; by apply standard_headers_insert.
Qed.

Lemma preserves_well_headed_sendRequest {RT : Runtime} (endpoint : jsstring)
    (data method callback : jsval) :
  preserves well_headed (sendRequest endpoint data method callback).
Proof.
  intros w HP.
  destruct (_initialized w) eqn:Hi.
  - destruct (encoded_body w data) as [ds |] eqn:Hb.
    + rewrite (sendRequest_sent w endpoint data method callback ds) by done.
      by apply well_headed_sent.
    + by rewrite sendRequest_unencodable.
  - by rewrite sendRequest_uninitialized.
Qed.

Lemma preserves_well_headed_perform {RT : Runtime} (op : operation) :
  preserves well_headed (perform op).
Proof.
  pose proof well_headed_blind as Hblind.
  destruct op; cbn [perform];
    unfold sendTextMessage, sendBinaryMessage, sendWapPushMessage,
      sendTTSMessage, getBalance, getPricing, updateSecret,
      updateMoCallBackUrl, updateDrCallBackUrl, getTopUp, getNumbers,
      searchNumbers, buyNumber, cancelNumber, updateNumberCallback,
      searchMessage, searchMessageByIds, searchMessagesByRecipient,
      searchRejections, sendError, sendMessage;
    repeat first [ apply preserves_well_headed_sendRequest
                 | by apply preserves_sendErrorResponse
                 | preserves_step ].
Qed.

Lemma preserves_well_headed_act {RT : Runtime} (a : action) :
  preserves well_headed (act a).
Proof.
  destruct a as [key secret protocol debug | op | i ev]; cbn [act].
  - intros w HP. unfold initialize.
    by destruct (negb (truthy key) || negb (truthy secret)).
  - apply preserves_well_headed_perform.
  - apply preserves_emit; [apply well_headed_blind | by intros w x HP].
Qed.

Lemma well_headed_session {RT : Runtime} (actions : list action) :
  ∀ w, well_headed w → well_headed (session actions w).
Proof.
  induction actions as [| a rest IH]; intros w HP; [done |].
  cbn [session]. apply IH. by apply preserves_well_headed_act.
Qed.

(** X21.  However a fresh client is used (initialised, called, answered by
    the transport, in any order and whatever throws on the way), every
    request it makes declares the form-urlencoded content type and accepts
    JSON: the two declared headers are never removed or changed. *)
Theorem every_request_declares_its_content_type {RT : Runtime}
    (actions : list action) :
  Forall (λ r, standard_headers (headers r)) (requests (session actions Nexmo)).
Proof.
  apply (well_headed_session actions Nexmo). split; [| constructor].
  split; reflexivity.
Qed.

(** ** Where the requests go *)

Lemma routed_quiet (endpoint : jsstring) (post : bool) (m : M unit) :
  (∀ w, requests (m w).2 = requests w) → routed endpoint post m.
Proof. intros Hm w. left. apply Hm. Qed.

Lemma routed_lift_bind (endpoint : jsstring) (post : bool) {A}
    (c : completion A) (k : A → M unit) :
  (∀ a, routed endpoint post (k a)) → routed endpoint post (lift c ≫= k).
Proof.
  intros Hk w. unfold mbind, M_bind, lift.
  destruct c as [a | e]; [apply Hk | by left].
Qed.

Lemma requests_sendErrorResponse {RT : Runtime} (callback err returnData : jsval)
    (w : world) :
  requests (sendErrorResponse callback err returnData w).2 = requests w.
Proof.
  apply (preserves_sendErrorResponse (λ w', requests w' = requests w));
    [by intros w' id args HP | reflexivity].
Qed.

Lemma routed_sendRequest {RT : Runtime} (endpoint : jsstring)
    (data how callback : jsval) :
  routed endpoint (strict_eq_string (effective_method how) "POST")
    (sendRequest endpoint data how callback).
Proof.
  intros w.
  destruct (_initialized w) eqn:Hi.
  - destruct (encoded_body w data) as [ds |] eqn:Hb.
    + right.
      rewrite (sendRequest_sent w endpoint data how callback ds) by done.
      unfold sent.
      destruct (strict_eq_string (effective_method how) "POST") eqn:Hpost;
        eexists; cbn [fst snd add_request set_header requests invocations];
        (split; [reflexivity |]); (split; [reflexivity |]);
        (split; [reflexivity |]); (split; [reflexivity |]);
        cbn [path method written]; split; try done.
      * intros _. repeat split; [| by eexists].
        unfold effective_method in *. destruct (is_function how); [done |].
        destruct how; try done. cbn in Hpost.
        by apply bool_decide_eq_true in Hpost as ->.
      * by apply prefix_app_r.
    + left. by rewrite sendRequest_unencodable.
  - left. by rewrite sendRequest_uninitialized.
Qed.

Lemma routed_weaken (endpoint : jsstring) (post : bool) (m : M unit) :
  routed endpoint post m → routed endpoint false m.
Proof.
  intros Hm w. destruct (Hm w) as [Hq | (r & H1 & H2 & H3 & H4 & H5 & _)];
    [by left | right]. exists r. by repeat split.
Qed.

Lemma routed_sendMessage {RT : Runtime} (data : jsval) (endpoint : jsstring)
    (callback : jsval) :
  routed endpoint true (sendMessage data endpoint callback).
Proof.
  unfold sendMessage.
  apply routed_lift_bind. intros from.
  destruct (negb (truthy from));
    [apply routed_quiet, requests_sendErrorResponse |].
  apply routed_lift_bind. intros to.
  destruct (negb (truthy to));
    [apply routed_quiet, requests_sendErrorResponse |].
  apply (routed_sendRequest endpoint data (JString (js "POST"))).
Qed.

Ltac routed_step :=
  lazymatch goal with
  | |- routed _ _ (sendErrorResponse _ _ _) =>
      apply routed_quiet, requests_sendErrorResponse
  | |- routed _ _ (throw _) => apply routed_quiet; intros ?; reflexivity
  | |- routed _ _ (sendMessage _ _ _) => apply routed_sendMessage
  | |- routed _ true (sendRequest ?e ?d ?m ?c) =>
      exact (routed_sendRequest e d (JString (js "POST")) c)
  | |- routed _ false (sendRequest ?e ?d ?m ?c) =>
      exact (routed_weaken _ _ _ (routed_sendRequest e d m c))
  | |- routed _ _ (lift _ ≫= _) => apply routed_lift_bind; intros ?
  | |- routed _ _ (if ?b then _ else _) => destruct b
  | |- routed _ _ (let '(_, _) := (if ?b then _ else _) in _) => destruct b
  end.

(** X22.  One call of a public operation makes at most one request.  When it
    makes one it returns normally without having invoked a continuation, and
    the request goes to the service's host and to the endpoint the operation
    is written for; for the message, account-update, top-up, buy and cancel
    operations it is a POST to exactly that path, with a body. *)
Theorem operation_makes_one_request_to_its_endpoint {RT : Runtime}
    (op : operation) (w : world) :
  requests (after (perform op) w) = requests w
  ∨ ∃ r,
      (perform op w).1 = Normal ()
      ∧ requests (after (perform op) w) = requests w ++ [r]
      ∧ invocations (after (perform op) w) = invocations w
      ∧ host r = _BASE_URL
      ∧ endpoint_of op `prefix_of` path r
      ∧ (posts op = true →
         method r = JString (js "POST") ∧ path r = endpoint_of op
         ∧ is_Some (written r)).
Proof.
  revert w. change (routed (endpoint_of op) (posts op) (perform op)).
  destruct op; cbn [perform endpoint_of posts];
    unfold sendTextMessage, sendBinaryMessage, sendWapPushMessage,
      sendTTSMessage, getBalance, getPricing, updateSecret,
      updateMoCallBackUrl, updateDrCallBackUrl, getTopUp, getNumbers,
      searchNumbers, buyNumber, cancelNumber, updateNumberCallback,
      searchMessage, searchMessageByIds, searchMessagesByRecipient,
      searchRejections, sendError;
    repeat routed_step.
Qed.

(** ** What goes over the wire *)

Lemma stringify_string_pair {RT : Runtime} (name : string) (v : jsstring) :
  encodeURIComponent (js name) = Some (js name) →
  stringify_pair (js name, JString v)
  = (λ e, js name ++ js "=" ++ e) <$> encodeURIComponent v.
Proof.
  intros Hname. unfold stringify_pair. cbn [fst snd]. rewrite Hname.
  cbn [fmap option_fmap option_map mbind option_bind stringifyPrimitive].
  destruct (encodeURIComponent v); cbn; [| done]. by rewrite <- app_assoc.
Qed.

Lemma stringify_credentials {RT : Runtime} (key secret : jsstring) :
  querystring_stringify
    (JObject [(js "api_key", JString key); (js "api_secret", JString secret)])
  = ekey ← encodeURIComponent key;
    esecret ← encodeURIComponent secret;
    Some (js "api_key=" ++ ekey ++ js "&api_secret=" ++ esecret).
Proof.
  cbn [querystring_stringify mapM].
  rewrite !stringify_string_pair by (vm_compute; reflexivity).
  destruct (encodeURIComponent key) as [ekey |]; [| done].
  destruct (encodeURIComponent secret) as [esecret |]; [| done].
  cbn. by f_equal.
Qed.

(** X23.  Every request starts with the credentials.  On a client whose key
    and secret are strings, the text [sendRequest] sends (the body of a POST,
    the query string otherwise) begins with [api_key=], the URL-encoded key,
    [&api_secret=] and the URL-encoded secret; the parameters of the
    operation come after them. *)
Theorem credentials_lead_every_request {RT : Runtime} (w w' : world)
    (endpoint : jsstring) (data how callback : jsval) (key secret : jsstring) :
  _apiKey w = JString key →
  _apiSecret w = JString secret →
  sendRequest endpoint data how callback w = (Normal (), w') →
  ∃ r ekey esecret parameters,
    requests w' = requests w ++ [r]
    ∧ encodeURIComponent key = Some ekey
    ∧ encodeURIComponent secret = Some esecret
    ∧ ((written r
        = Some (js "api_key=" ++ ekey ++ js "&api_secret=" ++ esecret
                ++ parameters)
        ∧ path r = endpoint)
       ∨ (written r = None
          ∧ path r
            = endpoint ++ js "?" ++ js "api_key=" ++ ekey
              ++ js "&api_secret=" ++ esecret ++ parameters)).
Proof.
  intros Hkey Hsecret Hrun.
  destruct (sendRequest_returns _ _ _ _ _ _ Hrun) as (ds & _ & Hb & ->).
  unfold encoded_body in Hb. rewrite Hkey, Hsecret, stringify_credentials in Hb.
  destruct (encodeURIComponent key) as [ekey |]; [| done].
  destruct (encodeURIComponent secret) as [esecret |]; [| done].
  cbn [mbind option_bind] in Hb.
  assert (∃ parameters,
            ds = js "api_key=" ++ ekey ++ js "&api_secret=" ++ esecret
                 ++ parameters) as [parameters ->].
  { destruct (truthy data).
    - destruct (querystring_stringify data) as [p |]; [| done].
      cbn [mbind option_bind] in Hb. exists (js "&" ++ p).
      assert ((js "api_key=" ++ ekey ++ js "&api_secret=" ++ esecret)
              ++ js "&" ++ p = ds) as <- by congruence.
      by rewrite <- !app_assoc.
    - exists []. rewrite app_nil_r. congruence. }
  unfold sent.
  destruct (strict_eq_string (effective_method how) "POST");
    eexists _, ekey, esecret, parameters;
    cbn [add_request set_header requests written path];
    (split; [reflexivity |]); (split; [reflexivity |]);
    (split; [reflexivity |]); [left | right]; split; reflexivity.
Qed.

Lemma credentials_lead_every_request_witness :
  ∃ r ekey esecret parameters,
    requests (after (getPricing (RT := sample_runtime) (JString (js "GB")) cb)
                ready)
    = requests ready ++ [r]
    ∧ encodeURIComponent (js "key") = Some ekey
    ∧ encodeURIComponent (js "secret") = Some esecret
    ∧ ((written r
        = Some (js "api_key=" ++ ekey ++ js "&api_secret=" ++ esecret
                ++ parameters)
        ∧ path r = _ENDPOINT.accountPricing)
       ∨ (written r = None
          ∧ path r
            = _ENDPOINT.accountPricing ++ js "?" ++ js "api_key=" ++ ekey
              ++ js "&api_secret=" ++ esecret ++ parameters)).
Proof.
  apply (credentials_lead_every_request (RT := sample_runtime) ready
           (after (getPricing (RT := sample_runtime) (JString (js "GB")) cb)
              ready)
           _ENDPOINT.accountPricing
           (JObject [(js "country", JString (js "GB"))]) cb JUndefined).
  - reflexivity.
  - reflexivity.
  - reflexivity.
Defined.

(** X24.  The callback-URL operations encode their argument themselves
    before [sendRequest] encodes every parameter: the URL reaches the wire
    URL-encoded twice (a space as [%2520]). *)
Theorem callback_url_is_encoded_twice {RT : Runtime} (url once twice : jsstring)
    (callback : jsval) (w : world) :
  url ≠ [] →
  encodeURIComponent url = Some once →
  encodeURIComponent once = Some twice →
  updateMoCallBackUrl (JString url) callback w
  = sendRequest _ENDPOINT.accountSettings
      (JObject [(js "moCallBackUrl", JString once)]) (JString (js "POST"))
      callback w
  ∧ updateDrCallBackUrl (JString url) callback w
    = sendRequest _ENDPOINT.accountSettings
        (JObject [(js "drCallBackUrl", JString once)]) (JString (js "POST"))
        callback w
  ∧ querystring_stringify (JObject [(js "moCallBackUrl", JString once)])
    = Some (js "moCallBackUrl=" ++ twice)
  ∧ querystring_stringify (JObject [(js "drCallBackUrl", JString once)])
    = Some (js "drCallBackUrl=" ++ twice).
Proof.
  intros Hne Honce Htwice.
  assert (Ht : truthy (JString url) = true).
  { cbn. by rewrite bool_decide_eq_false_2. }
  assert (Henc : encodeURIComponent_value (JString url) = Normal (JString once)).
  { unfold encodeURIComponent_value. cbn [ToString]. by rewrite Honce. }
  unfold updateMoCallBackUrl, updateDrCallBackUrl, mbind, M_bind, lift.
  rewrite Ht, Henc. cbn [negb querystring_stringify mapM].
  rewrite !stringify_string_pair by (vm_compute; reflexivity).
  rewrite Htwice. repeat split.
Qed.

Lemma callback_url_is_encoded_twice_witness :
  updateMoCallBackUrl (RT := sample_runtime) (JString (js "http://x.io/a b")) cb
    ready
  = sendRequest (RT := sample_runtime) _ENDPOINT.accountSettings
      (JObject [(js "moCallBackUrl", JString (js "http%3A%2F%2Fx.io%2Fa%20b"))])
      (JString (js "POST")) cb ready
  ∧ updateDrCallBackUrl (RT := sample_runtime) (JString (js "http://x.io/a b"))
      cb ready
    = sendRequest (RT := sample_runtime) _ENDPOINT.accountSettings
        (JObject [(js "drCallBackUrl", JString (js "http%3A%2F%2Fx.io%2Fa%20b"))])
        (JString (js "POST")) cb ready
  ∧ querystring_stringify (RT := sample_runtime)
      (JObject [(js "moCallBackUrl", JString (js "http%3A%2F%2Fx.io%2Fa%20b"))])
    = Some (js "moCallBackUrl=" ++ js "http%253A%252F%252Fx.io%252Fa%2520b")
  ∧ querystring_stringify (RT := sample_runtime)
      (JObject [(js "drCallBackUrl", JString (js "http%3A%2F%2Fx.io%2Fa%20b"))])
    = Some (js "drCallBackUrl=" ++ js "http%253A%252F%252Fx.io%252Fa%2520b").
Proof.
  apply (callback_url_is_encoded_twice (RT := sample_runtime)
           (js "http://x.io/a b")).
  - discriminate.
  - vm_compute. reflexivity.
  - vm_compute. reflexivity.
Defined.

(** ** Accepted calls on an initialised client *)






(** ** The protocol chosen at initialisation *)

Lemma preserves_perform {RT : Runtime} (P : world → Prop) (op : operation) :
  invocation_blind P →
  (∀ endpoint data how callback,
     preserves P (sendRequest endpoint data how callback)) →
  preserves P (perform op).
Proof.
  intros Hblind Hreq.
  destruct op; cbn [perform];
    unfold sendTextMessage, sendBinaryMessage, sendWapPushMessage,
      sendTTSMessage, getBalance, getPricing, updateSecret,
      updateMoCallBackUrl, updateDrCallBackUrl, getTopUp, getNumbers,
      searchNumbers, buyNumber, cancelNumber, updateNumberCallback,
      searchMessage, searchMessageByIds, searchMessagesByRecipient,
      searchRejections, sendError, sendMessage;
    repeat first [ apply Hreq
                 | by apply preserves_sendErrorResponse
                 | preserves_step ].
Qed.

(** The transport setting is [useHttps], and every request made since the
    state with requests [base] went where that setting says. *)
Lemma preserves_transport_choice {RT : Runtime} (useHttps : bool)
    (base : list request) (a : action) :
  is_init a = false →
  preserves
    (λ w, _useHttps w = useHttps
          ∧ ∃ later,
              requests w = base ++ later
              ∧ Forall (λ r, host r = _BASE_URL ∧ secure r = useHttps
                             ∧ port r = if useHttps then 443 else 80) later)
    (act a).
Proof.
  intros Ha.
  set (P := λ w : world, _useHttps w = useHttps ∧ _).
  assert (Hblind : invocation_blind P) by by intros w id args HP.
  destruct a as [key secret protocol debug | op | i ev]; [done | |]; cbn [act].
  - apply preserves_perform; [done |].
    intros endpoint data how callback w [Hs (later & Hreq & Hall)].
    destruct (_initialized w) eqn:Hi.
    + destruct (encoded_body w data) as [ds |] eqn:Hb.
      * rewrite (sendRequest_sent w endpoint data how callback ds) by done.
        unfold sent.
        destruct (strict_eq_string _ _);
          (split; [exact Hs |]); eexists (later ++ [_]);
          cbn [snd add_request set_header requests _useHttps];
          rewrite Hreq, <- app_assoc;
          (split; [reflexivity |]); (apply Forall_app_2; [exact Hall |]);
          repeat constructor; cbn [host secure port]; by rewrite ?Hs.
      * rewrite sendRequest_unencodable by done. split; [done | eauto].
    + rewrite sendRequest_uninitialized by done. split; [done | eauto].
  - apply preserves_emit; [done | by intros w x HP].
Qed.

Lemma session_transport_choice {RT : Runtime} (useHttps : bool)
    (base : list request) (actions : list action) :
  Forall (λ a, is_init a = false) actions →
  ∀ w,
    _useHttps w = useHttps →
    requests w = base →
    ∃ later,
      requests (session actions w) = base ++ later
      ∧ Forall (λ r, host r = _BASE_URL ∧ secure r = useHttps
                     ∧ port r = if useHttps then 443 else 80) later.
Proof.
  intros Hactions.
  assert (Hgen : ∀ w,
            (_useHttps w = useHttps
             ∧ ∃ later,
                 requests w = base ++ later
                 ∧ Forall (λ r, host r = _BASE_URL ∧ secure r = useHttps
                                ∧ port r = if useHttps then 443 else 80) later) →
            ∃ later,
              requests (session actions w) = base ++ later
              ∧ Forall (λ r, host r = _BASE_URL ∧ secure r = useHttps
                             ∧ port r = if useHttps then 443 else 80) later).
  { induction Hactions as [| a rest Ha _ IH]; intros w HP; [by destruct HP |].
    cbn [session]. apply IH.
    by apply (preserves_transport_choice useHttps base a Ha w). }
  intros w Hs Hreq. apply Hgen. split; [done |].
  exists []. by rewrite app_nil_r.
Qed.

(** X2.  The protocol given to [initialize] decides where every later request
    goes.  After a call of [initialize] that is accepted, and for as long as
    [initialize] is not called again, whatever operations are called and
    whatever events the transport delivers, every request made goes to the
    host rest.nexmo.com, on port 80 without TLS when the protocol was exactly
    the string 'http', on port 443 with TLS for any other value. *)
Theorem protocol_selects_port {RT : Runtime} (w w1 : world)
    (key secret protocol debug : jsval) (actions : list action) :
  initialize key secret protocol debug w = (Normal (), w1) →
  Forall (λ a, is_init a = false) actions →
  ∃ later,
    requests (session actions w1) = requests w ++ later
    ∧ Forall (λ r, host r = _BASE_URL
                   ∧ secure r = negb (strict_eq_string protocol "http")
                   ∧ port r = if strict_eq_string protocol "http"
                              then 80 else 443) later.
Proof.
  intros Hinit Hactions.
  unfold initialize in Hinit.
  destruct (negb (truthy key) || negb (truthy secret)); [done |].
  injection Hinit as <-.
  destruct (session_transport_choice
              (negb (strict_eq_string protocol "http")) (requests w) actions
              Hactions
              (configure key secret (negb (strict_eq_string protocol "http"))
                 debug w) eq_refl eq_refl) as (later & Hreq & Hall).
  exists later. split; [exact Hreq |].
  eapply Forall_impl; [exact Hall |].
  intros r (Hh & Hsec & Hport). repeat split; try done.
  rewrite Hport. by destruct (strict_eq_string protocol "http").
Qed.

Lemma protocol_selects_port_witness :
  ∃ later,
    requests (session (RT := sample_runtime)
                [Call (GetBalance cb); Event 0 EvResponse;
                 Call (UpdateMoCallBackUrl (JString (js "http://x.io")) cb);
                 Call (GetNumbers cb)]
                (after (initialize (JString (js "key")) (JString (js "secret"))
                          (JString (js "http")) JUndefined) Nexmo))
    = requests Nexmo ++ later
    ∧ Forall (λ r, host r = _BASE_URL
                   ∧ secure r = negb (strict_eq_string (JString (js "http")) "http")
                   ∧ port r = if strict_eq_string (JString (js "http")) "http"
                              then 80 else 443) later.
Proof.
  apply (protocol_selects_port (RT := sample_runtime) Nexmo _
           (JString (js "key")) (JString (js "secret")) (JString (js "http"))
           JUndefined).
  - reflexivity.
  - repeat constructor.
Defined.
